(** * The game query-and-enrichment engine of the games route

    A shallow embedding of [gameRouter] (routes/games.ts): the filter
    compiler of [POST /filter], the DTO assembly [formatGames], and the
    batch "played" loop, together with the facts the specification states
    about them.

    Conventions.
    - A JavaScript [Date] is its time value, an integer number of
      milliseconds since the epoch ([Z]).  The two built-ins the route uses,
      [new Date(s)] and [toISOString()], form the interface [DateApi].
    - An optional property is an [option]; [None] is [undefined]/[null].
    - An awaited service call either fulfils or rejects: the [Result] monad.
    - Arrays are lists; [a[i]] is stdpp's lookup and [a[i] = v] its insert. *)

From Stdlib Require Import ZArith QArith String Ascii List Bool Lia Permutation.
From stdpp Require Import base list.
Import ListNotations.

Local Open Scope Z_scope.
Local Open Scope string_scope.
Local Open Scope list_scope.

(** ** JavaScript primitives used by the route *)

Module JS.

(** [if (s)] on a string: the empty string is falsy. *)
Definition truthy_string (s : string) : bool :=
  negb (String.eqb s EmptyString).

(** [if (n)] on an integral number: zero is falsy. *)
Definition truthy_number (n : Z) : bool := negb (Z.eqb n 0).

(** [if (body.field)] on an optional string property. *)
Definition truthy_str (o : option string) : bool :=
  match o with
  | Some s => truthy_string s
  | None => false
  end.

(** [if (body.field)] on an optional number property. *)
Definition truthy_num (o : option Z) : bool :=
  match o with
  | Some n => truthy_number n
  | None => false
  end.

(** [a == b] between two values that are each a string, [null] or
    [undefined]: two strings compare by content, [null] and [undefined]
    are loosely equal to each other and to nothing else. *)
Definition loose_eq (a b : option string) : bool :=
  match a, b with
  | Some x, Some y => String.eqb x y
  | None, None => true
  | _, _ => false
  end.

(** [s.split(c)[0]] for a one-character separator: the text before the
    first occurrence of [c], the whole string when [c] does not occur. *)
Fixpoint split_head (c : ascii) (s : string) : string :=
  match s with
  | EmptyString => EmptyString
  | String a rest => if Ascii.eqb a c then EmptyString else String a (split_head c rest)
  end.

(** ASCII lower-casing of one character. *)
Definition lower_ascii (a : ascii) : ascii :=
  let n := nat_of_ascii a in
  if (Nat.leb 65 n && Nat.leb n 90)%bool then ascii_of_nat (n + 32) else a.

Fixpoint toLowerCase (s : string) : string :=
  match s with
  | EmptyString => EmptyString
  | String a rest => String (lower_ascii a) (toLowerCase rest)
  end.

(** [s.includes(sub)]. *)
Fixpoint includes (s sub : string) : bool :=
  String.prefix sub s ||
  match s with
  | EmptyString => false
  | String _ rest => includes rest sub
  end.

End JS.

(** The two [Date] built-ins the route relies on. *)
Class DateApi := {
  Date_new : string -> Z;
  toISOString : Z -> string
}.

(** ** Records of the data model *)

Module GammaUser.
Record t := { cid : string }.
End GammaUser.

Module Account.
Record t := { id : string; cid : string }.
End Account.

Module Borrow.
Record t := { returned : bool }.
End Borrow.

Module PlayStatus.
Record t := { userId : option string }.
End PlayStatus.

Module Rating.
Record t := { gameId : string; userId : string; score : Z }.
End Rating.

(** A game as the services hand it to the route: the stored columns together
    with the related [borrow] and [playStatus] records. *)
Module Game.
Record t := {
  id : string;
  name : string;
  description : string;
  platformName : string;
  dateReleased : Z;
  playtimeMinutes : Z;
  playerMin : Z;
  playerMax : Z;
  location : string;
  gameOwnerId : string;
  borrow : list Borrow.t;
  playStatus : list PlayStatus.t
}.
End Game.

(** The object [formatGames] builds for each game. *)
Module DTO.
Record t := {
  id : string;
  name : string;
  description : string;
  platformName : string;
  releaseDate : string;
  playtimeMinutes : Z;
  playerMin : Z;
  playerMax : Z;
  location : string;
  owner : string;
  isBorrowed : bool;
  ratingAvg : option Q;
  ratingUser : option Z;
  isPlayed : bool
}.

(** [dto.isPlayed = v] *)
Definition set_isPlayed (v : bool) (d : t) : t :=
  {| id := id d; name := name d; description := description d;
     platformName := platformName d; releaseDate := releaseDate d;
     playtimeMinutes := playtimeMinutes d; playerMin := playerMin d;
     playerMax := playerMax d; location := location d; owner := owner d;
     isBorrowed := isBorrowed d; ratingAvg := ratingAvg d;
     ratingUser := ratingUser d; isPlayed := v |}.
End DTO.

(** The validated request body of [POST /filter] ([filterGamesSchema]). *)
Module Body.
Record t := {
  name : option string;
  platform : option string;
  releaseBefore : option string;
  releaseAfter : option string;
  playtimeMin : option Z;
  playtimeMax : option Z;
  playerCount : option Z;
  owner : option string;
  location : option string
}.

(** The body [{}]. *)
Definition empty : t :=
  {| name := None; platform := None; releaseBefore := None;
     releaseAfter := None; playtimeMin := None; playtimeMax := None;
     playerCount := None; owner := None; location := None |}.
End Body.

(** ** The filter object handed to [filterGames] *)

Module Filter.

Inductive QueryMode := insensitive.

Record StringFilter := { contains : string; mode : QueryMode }.

(** [{ gte?, lte? }] on a number or on a date. *)
Record Range := { gte : option Z; lte : option Z }.

Record PlatformFilter := { platform_name : string }.

Record t := {
  name : option StringFilter;
  dateReleased : option Range;
  playerMax : option Range;
  playerMin : option Range;
  platform : option PlatformFilter;
  playtimeMinutes : option Range;
  location : option StringFilter
}.

(** [const filter: Filter = {}] *)
Definition empty : t :=
  {| name := None; dateReleased := None; playerMax := None;
     playerMin := None; platform := None; playtimeMinutes := None;
     location := None |}.

Definition set_name (v : StringFilter) (f : t) : t :=
  {| name := Some v; dateReleased := dateReleased f; playerMax := playerMax f;
     playerMin := playerMin f; platform := platform f;
     playtimeMinutes := playtimeMinutes f; location := location f |}.

Definition set_dateReleased (v : Range) (f : t) : t :=
  {| name := name f; dateReleased := Some v; playerMax := playerMax f;
     playerMin := playerMin f; platform := platform f;
     playtimeMinutes := playtimeMinutes f; location := location f |}.

Definition set_playerMax (v : Range) (f : t) : t :=
  {| name := name f; dateReleased := dateReleased f; playerMax := Some v;
     playerMin := playerMin f; platform := platform f;
     playtimeMinutes := playtimeMinutes f; location := location f |}.

Definition set_playerMin (v : Range) (f : t) : t :=
  {| name := name f; dateReleased := dateReleased f; playerMax := playerMax f;
     playerMin := Some v; platform := platform f;
     playtimeMinutes := playtimeMinutes f; location := location f |}.

Definition set_platform (v : PlatformFilter) (f : t) : t :=
  {| name := name f; dateReleased := dateReleased f; playerMax := playerMax f;
     playerMin := playerMin f; platform := Some v;
     playtimeMinutes := playtimeMinutes f; location := location f |}.

Definition set_playtimeMinutes (v : Range) (f : t) : t :=
  {| name := name f; dateReleased := dateReleased f; playerMax := playerMax f;
     playerMin := playerMin f; platform := platform f;
     playtimeMinutes := Some v; location := location f |}.

Definition set_location (v : StringFilter) (f : t) : t :=
  {| name := name f; dateReleased := dateReleased f; playerMax := playerMax f;
     playerMin := playerMin f; platform := platform f;
     playtimeMinutes := playtimeMinutes f; location := Some v |}.

End Filter.

(** ** The filter compiler: the first half of the [POST /filter] handler

    Each [if] of the handler is one step; an assignment to a property that
    is already set replaces it, as in the source. *)

Module FilterCompiler.
Import Filter.

(** [if (c) then-branch] where the branch updates [filter]. *)
Definition when (c : bool) (upd : Filter.t -> Filter.t) (f : Filter.t) : Filter.t :=
  if c then upd f else f.

(** The value of an optional body property inside a branch its truthiness
    guards. *)
Definition str_val (o : option string) : string := default EmptyString o.
Definition num_val (o : option Z) : Z := default 0 o.

(** The block guarded by [body.playtimeMax || body.playtimeMin]:
    start from [{}], then set [lte] and [gte] as available. *)
Definition playtime_range (body : Body.t) : Range :=
  let r := {| gte := None; lte := None |} in
  let r := if JS.truthy_num (Body.playtimeMax body)
           then {| gte := gte r; lte := Some (num_val (Body.playtimeMax body)) |} else r in
  let r := if JS.truthy_num (Body.playtimeMin body)
           then {| gte := Some (num_val (Body.playtimeMin body)); lte := lte r |} else r in
  r.

Definition compile {D : DateApi} (body : Body.t) : Filter.t :=
  let filter := Filter.empty in
  let filter :=
    when (JS.truthy_str (Body.name body))
      (set_name {| contains := str_val (Body.name body); mode := insensitive |}) filter in
  let filter :=
    when (JS.truthy_str (Body.releaseAfter body))
      (set_dateReleased
         {| gte := Some (Date_new (str_val (Body.releaseAfter body))); lte := None |}) filter in
  let filter :=
    when (JS.truthy_str (Body.releaseBefore body))
      (set_dateReleased
         {| gte := None; lte := Some (Date_new (str_val (Body.releaseBefore body))) |}) filter in
  let filter :=
    when (JS.truthy_str (Body.releaseAfter body) && JS.truthy_str (Body.releaseBefore body))
      (set_dateReleased
         {| gte := Some (Date_new (str_val (Body.releaseAfter body)));
            lte := Some (Date_new (str_val (Body.releaseBefore body))) |}) filter in
  let filter :=
    when (JS.truthy_num (Body.playerCount body))
      (fun f => set_playerMin {| gte := None; lte := Some (num_val (Body.playerCount body)) |}
                  (set_playerMax {| gte := Some (num_val (Body.playerCount body)); lte := None |} f))
      filter in
  let filter :=
    when (JS.truthy_str (Body.platform body))
      (set_platform {| platform_name := str_val (Body.platform body) |}) filter in
  let filter :=
    when (JS.truthy_num (Body.playtimeMax body) || JS.truthy_num (Body.playtimeMin body))
      (set_playtimeMinutes (playtime_range body)) filter in
  let filter :=
    when (JS.truthy_str (Body.location body))
      (set_location {| contains := str_val (Body.location body); mode := insensitive |}) filter in
  filter.

End FilterCompiler.

(** ** Awaited calls: fulfilment or rejection *)

Inductive Error :=
| ServiceError (msg : string)
| TypeError.

Inductive Result (A : Type) :=
| Ok (a : A)
| Rejected (e : Error).

Arguments Ok {A} a.
Arguments Rejected {A} e.

Definition bind {A B : Type} (c : Result A) (k : A -> Result B) : Result B :=
  match c with
  | Ok a => k a
  | Rejected e => Rejected e
  end.

Notation "x <- c ;; k" := (bind c (fun x => k))
  (at level 100, c at next level, right associativity).

(** [await Promise.all(ps)]: the array of all results, in the order of
    [ps], when every promise fulfils; a rejection when one of them rejects.
    (Which rejection wins depends on timing in JavaScript; here it is the
    first one in array order.) *)
Fixpoint Promise_all {A : Type} (ps : list (Result A)) : Result (list A) :=
  match ps with
  | [] => Ok []
  | p :: rest =>
      a <- p ;;
      l <- Promise_all rest ;;
      Ok (a :: l)
  end.

(** ** The services the route imports *)

Module Service.
Record t := {
  getAllGames : Result (list Game.t);
  searchGames : string -> Result (list Game.t);
  filterGames : Filter.t -> Result (list Game.t);
  getGameOwnerNameFromId : string -> Result string;
  getAverageRating : string -> Result (option Q);
  getUserRating : string -> string -> Result (option Z);
  getAccountFromCid : string -> Result (option Account.t)
}.
End Service.

(** ** DTO assembly: [formatGames] *)

Module Enrichment.

(** [game.borrow.filter((b) => !b.returned).length > 0] *)
Definition isBorrowed (game : Game.t) : bool :=
  Nat.ltb 0 (length (List.filter (fun b => negb (Borrow.returned b)) (Game.borrow game))).

(** The body of the [async (game) => ({ ... })] callback.  The awaited
    calls run in the order of the properties: owner, ratingAvg, ratingUser. *)
Definition formatGame {D : DateApi} (S : Service.t) (user : option GammaUser.t)
    (game : Game.t) : Result DTO.t :=
  owner <- Service.getGameOwnerNameFromId S (Game.gameOwnerId game) ;;
  ratingAvg <- Service.getAverageRating S (Game.id game) ;;
  ratingUser <- match user with
                | Some u => Service.getUserRating S (Game.id game) (GammaUser.cid u)
                | None => Ok None
                end ;;
  Ok {| DTO.id := Game.id game;
        DTO.name := Game.name game;
        DTO.description := Game.description game;
        DTO.platformName := Game.platformName game;
        DTO.releaseDate := JS.split_head "T" (toISOString (Game.dateReleased game));
        DTO.playtimeMinutes := Game.playtimeMinutes game;
        DTO.playerMin := Game.playerMin game;
        DTO.playerMax := Game.playerMax game;
        DTO.location := Game.location game;
        DTO.owner := owner;
        DTO.isBorrowed := isBorrowed game;
        DTO.ratingAvg := ratingAvg;
        DTO.ratingUser := ratingUser;
        DTO.isPlayed := false |}.

Definition formatGames {D : DateApi} (S : Service.t) (games : list Game.t)
    (user : option GammaUser.t) : Result (list DTO.t) :=
  Promise_all (map (formatGame S user) games).

(** [games[i].playStatus.filter((played) => played.userId == uid).length > 0] *)
Definition playedBy (uid : option string) (game : Game.t) : bool :=
  Nat.ltb 0 (length (List.filter (fun played => JS.loose_eq (PlayStatus.userId played) uid)
                            (Game.playStatus game))).

(** One iteration of the [for] loop of the filter route:
    [formattedGames[i].isPlayed = ...games[i]...].  Reading a property of
    [games[i]] or writing one of [formattedGames[i]] when the index is out
    of range is a [TypeError]. *)
Definition playedStep (uid : option string) (games : list Game.t)
    (acc : Result (list DTO.t)) (i : nat) : Result (list DTO.t) :=
  formattedGames <- acc ;;
  match games !! i, formattedGames !! i with
  | Some game, Some dto =>
      Ok (<[ i := DTO.set_isPlayed (playedBy uid game) dto ]> formattedGames)
  | _, _ => Rejected TypeError
  end.

(** [for (let i = 0; i < formattedGames.length; i++) ...] *)
Definition playedLoop (uid : option string) (games : list Game.t)
    (formattedGames : list DTO.t) : Result (list DTO.t) :=
  fold_left (playedStep uid games) (seq 0 (length formattedGames)) (Ok formattedGames).

End Enrichment.

(** ** The routes *)

Module Router.
Import Enrichment.

Record Request := {
  isAuthenticated : bool;
  user : option GammaUser.t;
  query_term : option string;
  body : Body.t
}.

Record Response := { status : Z; json : list DTO.t }.

(** [req.isAuthenticated() ? req.user as GammaUser : null] *)
Definition requestUser (req : Request) : option GammaUser.t :=
  if isAuthenticated req then user req else None.

(** [GET /] *)
Definition getGames {D : DateApi} (S : Service.t) (req : Request) : Result Response :=
  games <- Service.getAllGames S ;;
  formattedGames <- formatGames S games (requestUser req) ;;
  Ok {| status := 200; json := formattedGames |}.

(** [GET /search] *)
Definition getSearch {D : DateApi} (S : Service.t) (req : Request) : Result Response :=
  games <- Service.searchGames S (default EmptyString (query_term req)) ;;
  formattedGames <- formatGames S games (requestUser req) ;;
  Ok {| status := 200; json := formattedGames |}.

(** [POST /filter], after the body passed [filterGamesSchema]. *)
Definition postFilter {D : DateApi} (S : Service.t) (req : Request) : Result Response :=
  let filter := FilterCompiler.compile (body req) in
  games <- Service.filterGames S filter ;;
  formattedGames <- formatGames S games (requestUser req) ;;
  formattedGames <-
    match user req with
    | Some u =>
        account <- Service.getAccountFromCid S (GammaUser.cid u) ;;
        let uid := option_map Account.id account in
        playedLoop uid games formattedGames
    | None => Ok formattedGames
    end ;;
  Ok {| status := 200; json := formattedGames |}.

End Router.

(** ** The catalog store behind the services

    The service modules ([gameService], [ratingService], [accountService])
    are outside the route; what they answer is taken from the
    specification's description of the store. *)

Module CatalogStore.
Import Filter.

(** Modelled from the spec: the catalog store (sections 2 and 3) holds the
    Game records with their Borrow and PlayMark records attached, the Rating
    records and the accounts; resolving an owner's display name goes through
    the identity provider and may fail. *)
Record t := {
  games : list Game.t;
  ratings : list Rating.t;
  accounts : list Account.t;
  ownerName : string -> Result string
}.

(** Modelled from the spec: a [{ gte?, lte? }] bound object is an interval
    that is inclusive at each end that is present (section 4.1, rules 2-4
    and 7); an absent end imposes no constraint. *)
Definition in_range (r : Range) (v : Z) : bool :=
  match gte r with Some lo => Z.leb lo v | None => true end &&
  match lte r with Some hi => Z.leb v hi | None => true end.

(** Modelled from the spec: [{ contains, mode: 'insensitive' }] is a
    case-insensitive substring match (section 4.1, rules 1 and 8). *)
Definition contains_insensitive (sf : StringFilter) (s : string) : bool :=
  JS.includes (JS.toLowerCase s) (JS.toLowerCase (contains sf)).

(** Modelled from the spec: an absent field imposes no constraint
    (section 4.1). *)
Definition holds {A : Type} (o : option A) (p : A -> bool) : bool :=
  match o with
  | Some a => p a
  | None => true
  end.

(** Modelled from the spec: the predicate set of [filterGames], which lives
    in [gameService]: all present predicates combine with logical AND
    (section 4.1). *)
Definition matches (f : Filter.t) (g : Game.t) : bool :=
  holds (name f) (fun sf => contains_insensitive sf (Game.name g)) &&
  holds (dateReleased f) (fun r => in_range r (Game.dateReleased g)) &&
  holds (playerMax f) (fun r => in_range r (Game.playerMax g)) &&
  holds (playerMin f) (fun r => in_range r (Game.playerMin g)) &&
  holds (platform f) (fun p => String.eqb (platform_name p) (Game.platformName g)) &&
  holds (playtimeMinutes f) (fun r => in_range r (Game.playtimeMinutes g)) &&
  holds (location f) (fun sf => contains_insensitive sf (Game.location g)).

(** Modelled from the spec: [filterGames] of [gameService], the store's
    [queryGames(predicateSet)] (section 6): the stored games the predicate
    set matches. *)
Definition filterGames (st : t) (f : Filter.t) : Result (list Game.t) :=
  Ok (List.filter (matches f) (games st)).

(** Modelled from the spec: [getAllGames] of [gameService], the unfiltered
    listing (section 4.1). *)
Definition getAllGames (st : t) : Result (list Game.t) := Ok (games st).

(** Modelled from the spec: [searchGames] of [gameService], the free-text
    search, which uses only the name-substring predicate (section 4.1). *)
Definition searchGames (st : t) (term : string) : Result (list Game.t) :=
  Ok (List.filter (fun g => contains_insensitive {| contains := term; mode := insensitive |}
                         (Game.name g)) (games st)).

(** Modelled from the spec: the scores of all Rating records of one game
    (section 4.3). *)
Definition scoresFor (st : t) (gameId : string) : list Z :=
  map Rating.score (List.filter (fun r => String.eqb (Rating.gameId r) gameId) (ratings st)).

(** Modelled from the spec: the sum that the arithmetic mean divides. *)
Definition sum (l : list Z) : Z := fold_right Z.add 0 l.

(** Modelled from the spec: [getAverageRating] of [ratingService], the
    rating aggregator (section 4.3): the arithmetic mean of all Rating
    scores of the game, or the empty value when the game has no rating. *)
Definition getAverageRating (st : t) (gameId : string) : option Q :=
  match scoresFor st gameId with
  | [] => None
  | scores => Some (Qmake (sum scores) (Pos.of_nat (length scores)))
  end.

(** Modelled from the spec: [getAccountFromCid] of [accountService], the
    account resolver (section 6): the account of an external identity, or
    absent if unknown. *)
Definition getAccountFromCid (st : t) (cid : string) : option Account.t :=
  find (fun a => String.eqb (Account.cid a) cid) (accounts st).

(** Modelled from the spec: [getUserRating] of [ratingService]: the
    requesting identity's own score for the game, or absent when there is
    no such rating (section 4.2). *)
Definition getUserRating (st : t) (gameId cid : string) : option Z :=
  match getAccountFromCid st cid with
  | Some a =>
      option_map Rating.score
        (find (fun r => String.eqb (Rating.gameId r) gameId &&
                        String.eqb (Rating.userId r) (Account.id a)) (ratings st))
  | None => None
  end.

(** Modelled from the spec: the services the route imports, answered by a
    store; the rating and account lookups read the store and do not fail. *)
Definition services (st : t) : Service.t :=
  {| Service.getAllGames := getAllGames st;
     Service.searchGames := searchGames st;
     Service.filterGames := filterGames st;
     Service.getGameOwnerNameFromId := ownerName st;
     Service.getAverageRating := fun gameId => Ok (getAverageRating st gameId);
     Service.getUserRating := fun gameId cid => Ok (getUserRating st gameId cid);
     Service.getAccountFromCid := fun cid => Ok (getAccountFromCid st cid) |}.

End CatalogStore.

(** ** A concrete [DateApi]: ISO-8601 UTC timestamps

    [new Date(s)] on the form [YYYY-MM-DDTHH:mm:ss.sssZ] (fraction optional)
    and [toISOString()] for years 0000 to 9999, through the proleptic
    Gregorian calendar. *)

Module IsoDate.

Definition digit (a : ascii) : Z := Z.of_nat (nat_of_ascii a) - 48.

Fixpoint number_from (acc : Z) (s : string) : Z :=
  match s with
  | EmptyString => acc
  | String a rest => number_from (10 * acc + digit a) rest
  end.

Definition field (start len : nat) (s : string) : Z :=
  number_from 0 (substring start len s).

Definition days_from_civil (y m d : Z) : Z :=
  let y := if Z.leb m 2 then y - 1 else y in
  let era := y / 400 in
  let yoe := y - era * 400 in
  let doy := (153 * (if Z.ltb 2 m then m - 3 else m + 9) + 2) / 5 + d - 1 in
  let doe := yoe * 365 + yoe / 4 - yoe / 100 + doy in
  era * 146097 + doe - 719468.

Definition parse (s : string) : Z :=
  let millis := match get 19 s with
                | Some "."%char => field 20 3 s
                | _ => 0
                end in
  days_from_civil (field 0 4 s) (field 5 2 s) (field 8 2 s) * 86400000
  + field 11 2 s * 3600000 + field 14 2 s * 60000 + field 17 2 s * 1000 + millis.

Fixpoint pad (width : nat) (n : Z) (tail : string) : string :=
  match width with
  | O => tail
  | S w => pad w (n / 10) (String (ascii_of_nat (Z.to_nat (48 + n mod 10))) tail)
  end.

Definition format (t : Z) : string :=
  let days := t / 86400000 in
  let rest := t mod 86400000 in
  let z := days + 719468 in
  let era := z / 146097 in
  let doe := z - era * 146097 in
  let yoe := (doe - doe / 1460 + doe / 36524 - doe / 146096) / 365 in
  let doy := doe - (365 * yoe + yoe / 4 - yoe / 100) in
  let mp := (5 * doy + 2) / 153 in
  let d := doy - (153 * mp + 2) / 5 + 1 in
  let m := if Z.ltb mp 10 then mp + 3 else mp - 9 in
  let y := yoe + era * 400 + (if Z.leb m 2 then 1 else 0) in
  let hh := rest / 3600000 in
  let mm := rest / 60000 mod 60 in
  let ss := rest / 1000 mod 60 in
  let ms := rest mod 1000 in
  let time := pad 2 hh (String ":" (pad 2 mm (String ":" (pad 2 ss (String "." (pad 3 ms "Z")))))) in
  pad 4 y (String "-" (pad 2 m (String "-" (pad 2 d (String "T" time))))).

Definition api : DateApi := {| Date_new := parse; toISOString := format |}.

End IsoDate.

(** ** Sample data: a small catalog and three kinds of request *)

Module Sample.

Definition open_borrow : Borrow.t := {| Borrow.returned := false |}.
Definition closed_borrow : Borrow.t := {| Borrow.returned := true |}.
Definition mark (userId : string) : PlayStatus.t := {| PlayStatus.userId := Some userId |}.

Definition game (id name location released : string) (playerMin playerMax : Z)
    (borrow : list Borrow.t) (playStatus : list PlayStatus.t) : Game.t :=
  {| Game.id := id; Game.name := name; Game.description := "A game";
     Game.platformName := "Board"; Game.dateReleased := IsoDate.parse released;
     Game.playtimeMinutes := 60; Game.playerMin := playerMin;
     Game.playerMax := playerMax; Game.location := location;
     Game.gameOwnerId := "owner1"; Game.borrow := borrow;
     Game.playStatus := playStatus |}.

(** The three games of the player-count scenario:
    (playerMin, playerMax) = (2, 6), (5, 5) and (1, 3). *)
Definition catan : Game.t :=
  game "g1" "Settlers of Catan" "Hubben" "1995-01-01T00:00:00.000Z" 2 6
       [closed_borrow; open_borrow] [mark "acc1"].
Definition quintet : Game.t :=
  game "g2" "Quintet" "Basement" "2015-06-01T00:00:00.000Z" 5 5 [] [].
Definition trio : Game.t :=
  game "g3" "Trio" "Hubben" "2021-03-15T12:30:00.000Z" 1 3
       [closed_borrow] [mark "acc2"].

Definition rating (gameId userId : string) (score : Z) : Rating.t :=
  {| Rating.gameId := gameId; Rating.userId := userId; Rating.score := score |}.

Definition owners (ownerId : string) : Result string :=
  if String.eqb ownerId "owner1" then Ok "Alice" else Rejected (ServiceError "unknown owner").

Definition store : CatalogStore.t :=
  {| CatalogStore.games := [catan; quintet; trio];
     CatalogStore.ratings := [rating "g1" "acc1" 4; rating "g1" "acc2" 5; rating "g3" "acc1" 2];
     CatalogStore.accounts := [ {| Account.id := "acc1"; Account.cid := "alice" |} ];
     CatalogStore.ownerName := owners |}.

(** The same catalog with one more game whose owner cannot be resolved. *)
Definition orphan : Game.t :=
  {| Game.id := "g4"; Game.name := "Orphan"; Game.description := "A game";
     Game.platformName := "Board";
     Game.dateReleased := IsoDate.parse "2000-01-01T00:00:00.000Z";
     Game.playtimeMinutes := 30; Game.playerMin := 1; Game.playerMax := 2;
     Game.location := "Attic"; Game.gameOwnerId := "owner9"; Game.borrow := [];
     Game.playStatus := [] |}.

Definition broken_store : CatalogStore.t :=
  {| CatalogStore.games := [catan; orphan; trio];
     CatalogStore.ratings := CatalogStore.ratings store;
     CatalogStore.accounts := CatalogStore.accounts store;
     CatalogStore.ownerName := owners |}.

(** [{ playerCount: n }] *)
Definition players (n : Z) : Body.t :=
  {| Body.name := None; Body.platform := None; Body.releaseBefore := None;
     Body.releaseAfter := None; Body.playtimeMin := None; Body.playtimeMax := None;
     Body.playerCount := Some n; Body.owner := None; Body.location := None |}.

(** [{ playerCount: 4 }] *)
Definition four_players : Body.t := players 4.

(** [{ releaseAfter: 2020-01-01, releaseBefore: 2010-01-01 }]: an empty range. *)
Definition empty_range : Body.t :=
  {| Body.name := None; Body.platform := None;
     Body.releaseBefore := Some "2010-01-01T00:00:00.000Z";
     Body.releaseAfter := Some "2020-01-01T00:00:00.000Z";
     Body.playtimeMin := None; Body.playtimeMax := None;
     Body.playerCount := None; Body.owner := None; Body.location := None |}.

Definition request (user : option GammaUser.t) (body : Body.t) : Router.Request :=
  {| Router.isAuthenticated := match user with Some _ => true | None => false end;
     Router.user := user; Router.query_term := None; Router.body := body |}.

(** No session. *)
Definition anonymous : Router.Request := request None Body.empty.
(** A session whose identity has an account ([acc1]). *)
Definition alice : Router.Request :=
  request (Some {| GammaUser.cid := "alice" |}) Body.empty.
(** A session whose identity has no account. *)
Definition stranger : Router.Request :=
  request (Some {| GammaUser.cid := "mallory" |}) Body.empty.

End Sample.

(** ** The request schemas

    [filterGamesSchema] and [addGameSchema], which [validateRequestBody]
    checks before the handler runs.  The two format checks of the schema
    library, [datetime()] and [cuid2()], form the interface [ZodChecks]. *)

Class ZodChecks := {
  z_datetime : string -> bool;
  z_cuid2 : string -> bool
}.

(** The body of [POST /add]. *)
Module AddBody.
Record t := {
  name : string;
  description : string;
  platform : string;
  releaseDate : string;
  playtime : Z;
  playerMin : Z;
  playerMax : Z;
  location : string
}.
End AddBody.

Module Schema.

(** [.optional()]: an absent property passes. *)
Definition optional {A : Type} (check : A -> bool) (o : option A) : bool :=
  match o with
  | Some a => check a
  | None => true
  end.

(** [z.string().min(lo)] *)
Definition string_min (lo : nat) (s : string) : bool := Nat.leb lo (String.length s).

(** [z.string().min(lo).max(hi)] *)
Definition string_min_max (lo hi : nat) (s : string) : bool :=
  Nat.leb lo (String.length s) && Nat.leb (String.length s) hi.

(** [z.number().int().min(lo)] *)
Definition int_min (lo : Z) (n : Z) : bool := Z.leb lo n.

(** [z.number().int().min(lo).max(hi)] *)
Definition int_min_max (lo hi : Z) (n : Z) : bool := Z.leb lo n && Z.leb n hi.

Definition filterGamesSchema {C : ZodChecks} (body : Body.t) : bool :=
  optional (string_min_max 1 500) (Body.name body) &&
  optional (string_min 1) (Body.platform body) &&
  optional z_datetime (Body.releaseBefore body) &&
  optional z_datetime (Body.releaseAfter body) &&
  optional (int_min 1) (Body.playtimeMin body) &&
  optional (int_min 1) (Body.playtimeMax body) &&
  optional (int_min_max 1 2000) (Body.playerCount body) &&
  optional z_cuid2 (Body.owner body) &&
  optional (string_min_max 1 500) (Body.location body).

Definition addGameSchema {C : ZodChecks} (body : AddBody.t) : bool :=
  string_min_max 1 250 (AddBody.name body) &&
  string_min_max 1 2000 (AddBody.description body) &&
  string_min 1 (AddBody.platform body) &&
  z_datetime (AddBody.releaseDate body) &&
  int_min 1 (AddBody.playtime body) &&
  int_min 1 (AddBody.playerMin body) &&
  int_min 1 (AddBody.playerMax body) &&
  string_min_max 1 250 (AddBody.location body).

End Schema.

(** ** Updates of a request body, used to compare requests *)

Module BodyUpdate.

(** The body with its [owner] property replaced. *)
Definition with_owner (o : option string) (body : Body.t) : Body.t :=
  {| Body.name := Body.name body; Body.platform := Body.platform body;
     Body.releaseBefore := Body.releaseBefore body;
     Body.releaseAfter := Body.releaseAfter body;
     Body.playtimeMin := Body.playtimeMin body;
     Body.playtimeMax := Body.playtimeMax body;
     Body.playerCount := Body.playerCount body;
     Body.owner := o; Body.location := Body.location body |}.

(** The add body with [playerMin] and [playerMax] exchanged. *)
Definition swap_players (body : AddBody.t) : AddBody.t :=
  {| AddBody.name := AddBody.name body;
     AddBody.description := AddBody.description body;
     AddBody.platform := AddBody.platform body;
     AddBody.releaseDate := AddBody.releaseDate body;
     AddBody.playtime := AddBody.playtime body;
     AddBody.playerMin := AddBody.playerMax body;
     AddBody.playerMax := AddBody.playerMin body;
     AddBody.location := AddBody.location body |}.

End BodyUpdate.

(** ** [GET /owners] *)

Module GameOwner.
Record t := { id : string }.
End GameOwner.

Module OwnerDTO.
Record t := { id : string; name : string }.
End OwnerDTO.

Module OwnersRoute.

Record Response := { status : Z; json : list OwnerDTO.t }.

(** The [async (owner) => ({ id, name })] callback. *)
Definition formatOwner (S : Service.t) (owner : GameOwner.t) : Result OwnerDTO.t :=
  name <- Service.getGameOwnerNameFromId S (GameOwner.id owner) ;;
  Ok {| OwnerDTO.id := GameOwner.id owner; OwnerDTO.name := name |}.

(** The handler; [getGameOwnersWithGames] is the awaited service call that
    lists the owners. *)
Definition getOwners (S : Service.t)
    (getGameOwnersWithGames : Result (list GameOwner.t)) : Result Response :=
  owners <- getGameOwnersWithGames ;;
  formattedOwners <- Promise_all (map (formatOwner S) owners) ;;
  Ok {| status := 200; json := formattedOwners |}.

End OwnersRoute.

(** ** Handlers that write: thrown values, [try]/[catch] and the state
    behind the services

    The write services act on the store, so an awaited call is a function of
    the state [W] behind the services: it returns or throws, and leaves a
    new state either way. *)

Inductive Thrown :=
| ThrownError (message : string)
| ThrownOther.

Inductive Outcome (A : Type) :=
| Returns (a : A)
| Throws (t : Thrown).

Arguments Returns {A} a.
Arguments Throws {A} t.

Definition Action (W A : Type) : Type := W -> Outcome A * W.

Definition ret {W A : Type} (a : A) : Action W A := fun w => (Returns a, w).

(** [const x = await c; k] *)
Definition and_then {W A B : Type} (c : Action W A) (k : A -> Action W B) : Action W B :=
  fun w =>
    match c w with
    | (Returns a, w') => k a w'
    | (Throws t, w') => (Throws t, w')
    end.

(** [try { c } catch (e) { h }] *)
Definition try_catch {W A : Type} (c : Action W A) (h : Thrown -> Action W A) : Action W A :=
  fun w =>
    match c w with
    | (Returns a, w') => (Returns a, w')
    | (Throws t, w') => h t w'
    end.

Notation "x <~ c ;; k" := (and_then c (fun x => k))
  (at level 100, c at next level, right associativity).

(** The services of the write routes. *)
Module WriteService.
Record t (W : Type) := {
  platformExists : string -> Action W bool;
  createGame : string -> string -> string -> Z -> Z -> Z -> Z -> string -> string ->
               Action W unit;
  getGameOwnerIdFromCid : string -> Action W string;
  removeGame : option string -> string -> Action W unit;
  markGameAsPlayed : option string -> string -> Action W unit;
  markGameAsNotPlayed : option string -> string -> Action W unit
}.
Arguments platformExists {W} _ _ _.
Arguments createGame {W} _ _ _ _ _ _ _ _ _ _ _.
Arguments getGameOwnerIdFromCid {W} _ _ _.
Arguments removeGame {W} _ _ _ _.
Arguments markGameAsPlayed {W} _ _ _ _.
Arguments markGameAsNotPlayed {W} _ _ _ _.
End WriteService.

(** [req.body] of [POST /remove]; the route has no schema, so [id] may be
    missing. *)
Module RemoveBody.
Record t := { id : option string }.
End RemoveBody.

(** [req.body] of [POST /markPlayed] and [POST /markNotPlayed]. *)
Module MarkBody.
Record t := { gameId : option string }.
End MarkBody.

Module Writes.

Record Request (B : Type) := {
  user : option GammaUser.t;
  body : B
}.
Arguments user {B} _.
Arguments body {B} _.

(** What the handler sends: [res.status(s).json({ message })], or the call
    [sendApiValidationError(res, { path, message }, source)]. *)
Inductive Reply :=
| Json (status : Z) (message : string)
| ApiValidationError (path message source : string).

(** [POST /add], after the body passed [addGameSchema]. *)
Definition postAdd {D : DateApi} {W : Type} (S : WriteService.t W)
    (req : Request AddBody.t) : Action W Reply :=
  try_catch
    (match user req with
     | None => ret (Json 401 "Must be logged in to add game")
     | Some u =>
         let body := body req in
         found <~ WriteService.platformExists S (AddBody.platform body) ;;
         if negb found then
           ret (ApiValidationError "platform" "Platform does not exist" "Body")
         else
           ownerId <~ WriteService.getGameOwnerIdFromCid S (GammaUser.cid u) ;;
           _ <~ WriteService.createGame S
                  (AddBody.name body)
                  (AddBody.description body)
                  (AddBody.platform body)
                  (Date_new (AddBody.releaseDate body))
                  (AddBody.playtime body)
                  (AddBody.playerMin body)
                  (AddBody.playerMax body)
                  (AddBody.location body)
                  ownerId ;;
           ret (Json 200 "Game added")
     end)
    (fun e =>
       match e with
       | ThrownError _ => ret (Json 400 "Something went wrong adding the game")
       | ThrownOther =>
           ret (Json 500 "Uwu oopsie woopsie, the devs made a fucky wucky! Sowwy")
       end).

(** [POST /remove] *)
Definition postRemove {W : Type} (S : WriteService.t W)
    (req : Request RemoveBody.t) : Action W Reply :=
  try_catch
    (match user req with
     | None => ret (Json 401 "Must be logged in to remove game")
     | Some u =>
         ownerId <~ WriteService.getGameOwnerIdFromCid S (GammaUser.cid u) ;;
         _ <~ WriteService.removeGame S (RemoveBody.id (body req)) ownerId ;;
         ret (Json 200 "Game removed")
     end)
    (fun e =>
       match e with
       | ThrownError message => ret (Json 400 message)
       | ThrownOther => ret (Json 400 "Error removing game")
       end).

(** [POST /markPlayed] *)
Definition postMarkPlayed {W : Type} (S : WriteService.t W)
    (req : Request MarkBody.t) : Action W Reply :=
  try_catch
    (match user req with
     | None => ret (Json 401 "Unauthorized")
     | Some u =>
         _ <~ WriteService.markGameAsPlayed S (MarkBody.gameId (body req))
                (GammaUser.cid u) ;;
         ret (Json 200 "Game marked as played")
     end)
    (fun e =>
       match e with
       | ThrownError message => ret (Json 500 message)
       | ThrownOther => ret (Json 500 "Error marking game as played")
       end).

(** [POST /markNotPlayed] *)
Definition postMarkNotPlayed {W : Type} (S : WriteService.t W)
    (req : Request MarkBody.t) : Action W Reply :=
  try_catch
    (match user req with
     | None => ret (Json 401 "Unauthorized")
     | Some u =>
         _ <~ WriteService.markGameAsNotPlayed S (MarkBody.gameId (body req))
                (GammaUser.cid u) ;;
         ret (Json 200 "Game marked as not played")
     end)
    (fun e =>
       match e with
       | ThrownError message => ret (Json 500 message)
       | ThrownOther => ret (Json 500 "Error marking game as not played")
       end).

(** The status a reply carries, if it is a JSON message. *)
Definition status_of (r : Reply) : option Z :=
  match r with
  | Json status _ => Some status
  | ApiValidationError _ _ _ => None
  end.

End Writes.

(** ** Sample schema checks and write services *)

Module SampleWrites.

(** A stand-in for the schema library's format checks: a timestamp of the
    shape [YYYY-MM-DDTHH:mm:ss.sssZ], and a non-empty identifier. *)
Definition datetime_shape (s : string) : bool :=
  Nat.eqb (String.length s) 24 &&
  match get 10 s, get 23 s with
  | Some "T"%char, Some "Z"%char => true
  | _, _ => false
  end.

Definition zod : ZodChecks :=
  {| z_datetime := datetime_shape;
     z_cuid2 := fun s => negb (String.eqb s EmptyString) |}.

(** [{ name: "catan", releaseAfter: 1990-01-01, playtimeMax: 90,
       playerCount: 4, owner: "owner1" }] *)
Definition valid_body : Body.t :=
  {| Body.name := Some "catan"; Body.platform := None;
     Body.releaseBefore := None;
     Body.releaseAfter := Some "1990-01-01T00:00:00.000Z";
     Body.playtimeMin := None; Body.playtimeMax := Some 90;
     Body.playerCount := Some 4; Body.owner := Some "owner1";
     Body.location := None |}.

(** The state behind the sample write services: the ids of the stored
    games, each with its owner id. *)
Definition World : Type := list (string * string).

Definition owns (id owner : string) (entry : string * string) : bool :=
  String.eqb (fst entry) id && String.eqb (snd entry) owner.

Definition services : WriteService.t World :=
  {| WriteService.platformExists := fun platform w =>
       (Returns (String.eqb platform "Board"), w);
     WriteService.createGame := fun name _ _ _ _ _ _ _ ownerId w =>
       (Returns tt, (name, ownerId) :: w);
     WriteService.getGameOwnerIdFromCid := fun cid w =>
       if String.eqb cid "alice" then (Returns "owner1", w)
       else (Throws (ThrownError "Owner not found"), w);
     WriteService.removeGame := fun id ownerId w =>
       match id with
       | Some id =>
           if existsb (owns id ownerId) w
           then (Returns tt, List.filter (fun e => negb (owns id ownerId e)) w)
           else (Throws (ThrownError "Game not found"), w)
       | None => (Throws ThrownOther, w)
       end;
     WriteService.markGameAsPlayed := fun _ _ w => (Returns tt, w);
     WriteService.markGameAsNotPlayed := fun _ _ w => (Returns tt, w) |}.

Definition world : World := [("g1", "owner1"); ("g2", "owner2")].

Definition alice : GammaUser.t := {| GammaUser.cid := "alice" |}.
Definition mallory : GammaUser.t := {| GammaUser.cid := "mallory" |}.

Definition remove (user : option GammaUser.t) (id : string) :
    Writes.Request RemoveBody.t :=
  {| Writes.user := user; Writes.body := {| RemoveBody.id := Some id |} |}.

Definition chess : AddBody.t :=
  {| AddBody.name := "Chess"; AddBody.description := "A classic";
     AddBody.platform := "Board";
     AddBody.releaseDate := "1990-01-01T00:00:00.000Z";
     AddBody.playtime := 30; AddBody.playerMin := 2; AddBody.playerMax := 2;
     AddBody.location := "Hubben" |}.

Definition pong : AddBody.t :=
  {| AddBody.name := "Pong"; AddBody.description := "Two paddles";
     AddBody.platform := "Arcade";
     AddBody.releaseDate := "1972-11-29T00:00:00.000Z";
     AddBody.playtime := 5; AddBody.playerMin := 1; AddBody.playerMax := 2;
     AddBody.location := "Basement" |}.

Definition add (user : option GammaUser.t) (body : AddBody.t) :
    Writes.Request AddBody.t :=
  {| Writes.user := user; Writes.body := body |}.

End SampleWrites.

(** ** Sample data: a PlayMark without a user, and a list of owners *)

Module SampleMarks.

Definition unowned_mark : PlayStatus.t := {| PlayStatus.userId := None |}.

Definition haunted : Game.t :=
  Sample.game "g5" "Haunted" "Attic" "2001-10-31T00:00:00.000Z" 1 4 [] [unowned_mark].

Definition store : CatalogStore.t :=
  {| CatalogStore.games := [haunted; Sample.quintet];
     CatalogStore.ratings := [];
     CatalogStore.accounts := CatalogStore.accounts Sample.store;
     CatalogStore.ownerName := Sample.owners |}.

Definition owner1 : GameOwner.t := {| GameOwner.id := "owner1" |}.
Definition owner9 : GameOwner.t := {| GameOwner.id := "owner9" |}.

End SampleMarks.

(** ** Updates of a loaded game, used to compare store states *)

Module GameUpdate.

(** The game with its [borrow] records replaced. *)
Definition with_borrow (records : list Borrow.t) (game : Game.t) : Game.t :=
  {| Game.id := Game.id game; Game.name := Game.name game;
     Game.description := Game.description game;
     Game.platformName := Game.platformName game;
     Game.dateReleased := Game.dateReleased game;
     Game.playtimeMinutes := Game.playtimeMinutes game;
     Game.playerMin := Game.playerMin game; Game.playerMax := Game.playerMax game;
     Game.location := Game.location game; Game.gameOwnerId := Game.gameOwnerId game;
     Game.borrow := records; Game.playStatus := Game.playStatus game |}.

End GameUpdate.

(** * Properties *)

(** ** The sample [DateApi] on known instants *)

Example iso_parse_2023_04_13 :
  IsoDate.parse "2023-04-13T00:00:00.000Z" = 1681344000000.
Proof. reflexivity. Qed.

Example iso_format_2023_04_13 :
  IsoDate.format 1681344000000 = "2023-04-13T00:00:00.000Z".
Proof. reflexivity. Qed.

Example iso_roundtrip_leap_day :
  IsoDate.format (IsoDate.parse "2024-02-29T23:59:58Z") = "2024-02-29T23:59:58.000Z".
Proof. reflexivity. Qed.

Example split_head_date :
  JS.split_head "T" "2023-04-13T00:00:00.000Z" = "2023-04-13".
Proof. reflexivity. Qed.


(** ** [Promise.all] *)

Section PromiseAll.
Context {A : Type}.
Implicit Types (ps : list (Result A)) (l : list A).

Lemma Promise_all_cons_ok p ps l' :
  Promise_all (p :: ps) = Ok l' ->
  exists a l, p = Ok a /\ Promise_all ps = Ok l /\ l' = a :: l.
Proof.
  simpl. destruct p as [a|e]; simpl; [|discriminate].
  destruct (Promise_all ps) as [l|e]; simpl; [|discriminate].
  intros [= <-]. eauto.
Qed.

(** Fulfilment is pointwise: the [i]-th result is the value of the [i]-th
    promise. *)
Lemma Promise_all_Forall2 ps l :
  Promise_all ps = Ok l -> Forall2 (fun p a => p = Ok a) ps l.
Proof.
  revert l. induction ps as [|p ps IH]; intros l Hl.
  - injection Hl as <-. constructor.
  - apply Promise_all_cons_ok in Hl as (a & l0 & -> & Hps & ->).
    constructor; auto.
Qed.

(** One rejected promise rejects the whole. *)
Lemma Promise_all_rejects ps p e :
  In p ps -> p = Rejected e -> exists e', Promise_all ps = Rejected e'.
Proof.
  intros Hin ->. induction ps as [|q ps IH]; [destruct Hin|].
  simpl. destruct q as [a|e0]; simpl; [|eauto].
  destruct Hin as [Heq|Hin]; [discriminate|].
  destruct (IH Hin) as [e' ->]. simpl. eauto.
Qed.

(** When every promise fulfils, so does the whole. *)
Lemma Promise_all_fulfils ps :
  Forall (fun p => exists a, p = Ok a) ps -> exists l, Promise_all ps = Ok l.
Proof.
  induction 1 as [|p ps [a ->] _ [l IH]]; simpl; [eauto|].
  rewrite IH. simpl. eauto.
Qed.

End PromiseAll.

(** ** [formatGames] row by row *)

Section FormatGames.
Context {D : DateApi} (S : Service.t) (user : option GammaUser.t).
Import Enrichment.

Lemma formatGames_Forall2 games fs :
  formatGames S games user = Ok fs ->
  Forall2 (fun game dto => formatGame S user game = Ok dto) games fs.
Proof.
  unfold formatGames. intros Hfs. apply Promise_all_Forall2 in Hfs.
  apply Forall2_fmap_l in Hfs. exact Hfs.
Qed.

(** What a fulfilled [formatGame] copies from the game. *)
Lemma formatGame_fields game dto :
  formatGame S user game = Ok dto ->
  DTO.id dto = Game.id game /\
  DTO.isBorrowed dto = isBorrowed game /\
  DTO.isPlayed dto = false /\
  (user = None -> DTO.ratingUser dto = None) /\
  Service.getAverageRating S (Game.id game) = Ok (DTO.ratingAvg dto) /\
  exists name, Service.getGameOwnerNameFromId S (Game.gameOwnerId game) = Ok name
               /\ DTO.owner dto = name.
Proof.
  unfold formatGame.
  destruct (Service.getGameOwnerNameFromId S _) as [o|e]; simpl; [|discriminate].
  destruct (Service.getAverageRating S _) as [avg|e]; simpl; [|discriminate].
  destruct user as [u|].
  - destruct (Service.getUserRating S _ _) as [r|e]; simpl; [|discriminate].
    intros [= <-]. simpl. repeat split; eauto. discriminate.
  - simpl. intros [= <-]. simpl. repeat split; eauto.
Qed.

End FormatGames.

(** ** The batch "played" loop *)

Section PlayedLoop.
Import Enrichment.
Variables (uid : option string) (games : list Game.t).

(** The array the loop is meant to produce: row [i] of [formattedGames]
    with the flag computed from [games[i]]. *)
Let marked (fs : list DTO.t) : list DTO.t :=
  zip_with (fun game dto => DTO.set_isPlayed (playedBy uid game) dto) games fs.

(** Loop invariant: after [k] iterations the first [k] rows carry their
    flag and the others are untouched. *)
Lemma playedLoop_invariant (fs : list DTO.t) (k : nat) :
  length fs = length games -> (k <= length fs)%nat ->
  fold_left (playedStep uid games) (seq 0 k) (Ok fs)
  = Ok (take k (marked fs) ++ drop k fs).
Proof.
  intros Hlen. induction k as [|k IH]; intros Hk.
  - simpl. now rewrite drop_0.
  - rewrite seq_S, fold_left_app, IH by lia. simpl.
    destruct (lookup_lt_is_Some_2 games k) as [g Hg]; [lia|].
    destruct (lookup_lt_is_Some_2 fs k) as [d Hd]; [lia|].
    assert (Hm : marked fs !! k = Some (DTO.set_isPlayed (playedBy uid g) d)).
    { unfold marked. rewrite lookup_zip_with, Hg. simpl. now rewrite Hd. }
    assert (Hlt : length (take k (marked fs)) = k).
    { rewrite length_take. apply lookup_lt_Some in Hm. lia. }
    rewrite Hg.
    rewrite lookup_app_r by lia. rewrite Hlt, Nat.sub_diag, lookup_drop, Nat.add_0_r, Hd.
    f_equal.
    rewrite insert_app_r_alt by lia. rewrite Hlt, Nat.sub_diag.
    rewrite (take_S_r _ _ _ Hm), <- app_assoc. f_equal.
    rewrite (drop_S _ _ _ Hd). reflexivity.
Qed.

(** On arrays of equal length the loop ends without a [TypeError] and
    yields exactly the marked array. *)
Lemma playedLoop_marks (fs : list DTO.t) :
  length fs = length games ->
  playedLoop uid games fs = Ok (marked fs).
Proof.
  intros Hlen. unfold playedLoop.
  rewrite playedLoop_invariant by lia.
  rewrite drop_all, app_nil_r.
  rewrite take_ge; [reflexivity|].
  unfold marked. rewrite length_zip_with. lia.
Qed.

Lemma playedLoop_lookup (fs out : list DTO.t) :
  length fs = length games ->
  playedLoop uid games fs = Ok out ->
  length out = length games /\
  forall i game, games !! i = Some game ->
    exists dto, fs !! i = Some dto /\
                out !! i = Some (DTO.set_isPlayed (playedBy uid game) dto).
Proof.
  intros Hlen. rewrite playedLoop_marks by exact Hlen. intros [= <-].
  split.
  - unfold marked. rewrite length_zip_with. lia.
  - intros i g Hg.
    destruct (lookup_lt_is_Some_2 fs i) as [d Hd].
    { apply lookup_lt_Some in Hg. lia. }
    exists d. split; [exact Hd|].
    unfold marked. rewrite lookup_zip_with, Hg. simpl. now rewrite Hd.
Qed.

End PlayedLoop.

(** ** The filter compiler *)

Section Compiler.
Context {D : DateApi}.
Import FilterCompiler.

Lemma truthy_str_Some (s : string) : s <> "" -> JS.truthy_str (Some s) = true.
Proof.
  intros Hs. unfold JS.truthy_str, JS.truthy_string.
  destruct (String.eqb_spec s ""); [contradiction|reflexivity].
Qed.

Lemma truthy_num_Some (n : Z) : n <> 0 -> JS.truthy_num (Some n) = true.
Proof.
  intros Hn. unfold JS.truthy_num, JS.truthy_number.
  destruct (Z.eqb_spec n 0); [contradiction|reflexivity].
Qed.

Ltac case_whens :=
  repeat match goal with
         | |- context [when true ?u ?f] => change (when true u f) with (u f)
         | |- context [when false ?u ?f] => change (when false u f) with f
         | |- context [when ?c _ _] => destruct c
         end.

(** The steps after the date bounds leave [dateReleased] alone, so the
    last assignment of the three date steps decides it. *)
Lemma compile_dateReleased (body : Body.t) :
  Filter.dateReleased (compile body) =
  let after := Body.releaseAfter body in
  let before := Body.releaseBefore body in
  if JS.truthy_str after && JS.truthy_str before then
    Some {| Filter.gte := Some (Date_new (str_val after));
            Filter.lte := Some (Date_new (str_val before)) |}
  else if JS.truthy_str before then
    Some {| Filter.gte := None; Filter.lte := Some (Date_new (str_val before)) |}
  else if JS.truthy_str after then
    Some {| Filter.gte := Some (Date_new (str_val after)); Filter.lte := None |}
  else None.
Proof.
  unfold compile. cbv zeta.
  destruct (JS.truthy_str (Body.releaseAfter body)),
           (JS.truthy_str (Body.releaseBefore body)); simpl andb; cbv iota;
    case_whens; reflexivity.
Qed.

(** The player-count step is the only one that writes [playerMin] and
    [playerMax]. *)
Lemma compile_playerCount (body : Body.t) :
  let f := compile body in
  let pc := Body.playerCount body in
  Filter.playerMax f =
    (if JS.truthy_num pc
     then Some {| Filter.gte := Some (num_val pc); Filter.lte := None |} else None) /\
  Filter.playerMin f =
    (if JS.truthy_num pc
     then Some {| Filter.gte := None; Filter.lte := Some (num_val pc) |} else None).
Proof.
  unfold compile. cbv zeta.
  destruct (JS.truthy_num (Body.playerCount body)); case_whens; split; reflexivity.
Qed.

Lemma in_range_spec (lo hi : Z) (v : Z) :
  CatalogStore.in_range {| Filter.gte := Some lo; Filter.lte := Some hi |} v = true
  <-> lo <= v <= hi.
Proof. unfold CatalogStore.in_range. simpl. rewrite andb_true_iff. lia. Qed.

Lemma matches_true (f : Filter.t) (g : Game.t) :
  CatalogStore.matches f g = true ->
  CatalogStore.holds (Filter.dateReleased f)
    (fun r => CatalogStore.in_range r (Game.dateReleased g)) = true /\
  CatalogStore.holds (Filter.playerMax f)
    (fun r => CatalogStore.in_range r (Game.playerMax g)) = true /\
  CatalogStore.holds (Filter.playerMin f)
    (fun r => CatalogStore.in_range r (Game.playerMin g)) = true.
Proof.
  unfold CatalogStore.matches. rewrite !andb_true_iff. tauto.
Qed.

Lemma filter_none {A : Type} (p : A -> bool) (l : list A) :
  (forall x, In x l -> p x = false) -> List.filter p l = [].
Proof.
  induction l as [|x l IH]; intros Hp; simpl; [reflexivity|].
  rewrite (Hp x) by (left; reflexivity). apply IH. intros y Hy. apply Hp. now right.
Qed.

Lemma filter_all {A : Type} (p : A -> bool) (l : list A) :
  (forall x, p x = true) -> List.filter p l = l.
Proof.
  intros Hp. induction l as [|x l IH]; simpl; [reflexivity|].
  now rewrite Hp, IH.
Qed.

End Compiler.

(** ** Claims about the filter compiler *)

(** C1.  When both [releaseAfter] and [releaseBefore] are supplied, the
    compiled predicate on [dateReleased] is the one range object carrying
    both bounds, [gte = releaseAfter] and [lte = releaseBefore]; a date
    satisfies it exactly when it lies in the inclusive interval, every game
    the compiled filter matches lies in it, and when [releaseAfter] is later
    than [releaseBefore] the query fulfils with no game at all. *)
Theorem compile_release_range {D : DateApi} (body : Body.t) (a b : string) :
  Body.releaseAfter body = Some a ->
  Body.releaseBefore body = Some b ->
  a <> "" -> b <> "" ->
  let f := FilterCompiler.compile body in
  let range := {| Filter.gte := Some (Date_new a); Filter.lte := Some (Date_new b) |} in
  Filter.dateReleased f = Some range /\
  (forall d, CatalogStore.in_range range d = true <-> Date_new a <= d <= Date_new b) /\
  (forall g, CatalogStore.matches f g = true ->
             Date_new a <= Game.dateReleased g <= Date_new b) /\
  (Date_new b < Date_new a ->
   forall st, CatalogStore.filterGames st f = Ok []).
Proof.
  intros Ha Hb Hane Hbne f range.
  assert (Hf : Filter.dateReleased f = Some range).
  { unfold f. rewrite compile_dateReleased, Ha, Hb. cbv zeta.
    rewrite !truthy_str_Some by assumption. reflexivity. }
  assert (Hm : forall g, CatalogStore.matches f g = true ->
                         Date_new a <= Game.dateReleased g <= Date_new b).
  { intros g Hg. apply matches_true in Hg as (Hd & _).
    rewrite Hf in Hd. simpl in Hd. now apply in_range_spec in Hd. }
  split; [exact Hf|]. split; [|split; [exact Hm|]].
  - intros d. apply in_range_spec.
  - intros Hlt st. unfold CatalogStore.filterGames. f_equal.
    apply filter_none. intros g _.
    destruct (CatalogStore.matches f g) eqn:E; [|reflexivity].
    apply Hm in E. lia.
Qed.

Lemma compile_release_range_witness :
  Filter.dateReleased (FilterCompiler.compile (D := IsoDate.api) Sample.empty_range)
  = Some {| Filter.gte := Some 1577836800000; Filter.lte := Some 1262304000000 |} /\
  CatalogStore.filterGames Sample.store
    (FilterCompiler.compile (D := IsoDate.api) Sample.empty_range) = Ok [].
Proof.
  destruct (compile_release_range (D := IsoDate.api) Sample.empty_range
              "2020-01-01T00:00:00.000Z" "2010-01-01T00:00:00.000Z")
    as (Hrange & _ & _ & Hnone);
    [reflexivity | reflexivity | discriminate | discriminate |].
  split; [exact Hrange | apply Hnone; reflexivity].
Defined.

(** C3.  The empty body compiles to the filter object without any
    predicate; that filter matches every game, so the query returns the
    whole catalog. *)
Theorem compile_empty_matches_all {D : DateApi} :
  FilterCompiler.compile Body.empty = Filter.empty /\
  (forall g, CatalogStore.matches (FilterCompiler.compile Body.empty) g = true) /\
  (forall st, CatalogStore.filterGames st (FilterCompiler.compile Body.empty)
              = Ok (CatalogStore.games st)).
Proof.
  assert (Hall : forall g, CatalogStore.matches (FilterCompiler.compile Body.empty) g = true)
    by reflexivity.
  split; [reflexivity|]. split; [exact Hall|].
  intros st. unfold CatalogStore.filterGames. f_equal.
  apply filter_all. exact Hall.
Qed.

(** C5 as stated fails on its scenario: with [{ playerCount: 4 }] the game
    with (playerMin, playerMax) = (5, 5) is not matched, so the query over
    the three games does not return the first two. *)
Lemma playerCount_scenario_not_first_two :
  CatalogStore.matches (FilterCompiler.compile (D := IsoDate.api) Sample.four_players)
    Sample.quintet = false /\
  CatalogStore.filterGames Sample.store
    (FilterCompiler.compile (D := IsoDate.api) Sample.four_players)
  <> Ok [Sample.catan; Sample.quintet].
Proof.
  split; [reflexivity|].
  change (Ok [Sample.catan] <> Ok [Sample.catan; Sample.quintet]).
  intros [=].
Qed.

(** C5, amended.  When the body carries a non-zero [playerCount], the
    compiler sets [playerMax >= playerCount] and [playerMin <= playerCount];
    a game satisfies the two exactly when
    [playerMin <= playerCount <= playerMax], every game the compiled filter
    matches satisfies that, and for a body with [playerCount] alone that is
    the whole condition.  In the scenario [{ playerCount: 4 }] over games
    with ranges (2, 6), (5, 5) and (1, 3), exactly the first is returned. *)
Theorem compile_playerCount_range {D : DateApi} (body : Body.t) (pc : Z) :
  Body.playerCount body = Some pc ->
  pc <> 0 ->
  let f := FilterCompiler.compile body in
  let inside (g : Game.t) := Game.playerMin g <= pc <= Game.playerMax g in
  Filter.playerMax f = Some {| Filter.gte := Some pc; Filter.lte := None |} /\
  Filter.playerMin f = Some {| Filter.gte := None; Filter.lte := Some pc |} /\
  (forall g,
     CatalogStore.holds (Filter.playerMin f)
       (fun r => CatalogStore.in_range r (Game.playerMin g)) &&
     CatalogStore.holds (Filter.playerMax f)
       (fun r => CatalogStore.in_range r (Game.playerMax g)) = true
     <-> inside g) /\
  (forall g, CatalogStore.matches f g = true -> inside g) /\
  (forall g, CatalogStore.matches (FilterCompiler.compile (Sample.players pc)) g = true
             <-> inside g) /\
  CatalogStore.filterGames Sample.store (FilterCompiler.compile Sample.four_players)
  = Ok [Sample.catan].
Proof.
  intros Hpc Hne f inside.
  destruct (compile_playerCount body) as (Hmax & Hmin).
  rewrite Hpc, truthy_num_Some in Hmax, Hmin by exact Hne.
  fold f in Hmax, Hmin. simpl in Hmax, Hmin.
  assert (Hpair : forall g,
     CatalogStore.holds (Filter.playerMin f)
       (fun r => CatalogStore.in_range r (Game.playerMin g)) &&
     CatalogStore.holds (Filter.playerMax f)
       (fun r => CatalogStore.in_range r (Game.playerMax g)) = true
     <-> inside g).
  { intros g. rewrite Hmax, Hmin. unfold inside, CatalogStore.in_range. simpl.
    rewrite andb_true_r, andb_true_iff. lia. }
  split; [exact Hmax|]. split; [exact Hmin|]. split; [exact Hpair|].
  split; [|split].
  - intros g Hg. apply Hpair. apply matches_true in Hg as (_ & Hx & Hn).
    now rewrite Hx, Hn.
  - intros g. unfold inside.
    unfold FilterCompiler.compile, Sample.players. cbn -[JS.truthy_num].
    rewrite truthy_num_Some by exact Hne.
    unfold CatalogStore.matches, CatalogStore.in_range. simpl.
    rewrite andb_true_r, andb_true_iff. lia.
  - reflexivity.
Qed.

Lemma compile_playerCount_range_witness :
  CatalogStore.matches (FilterCompiler.compile (D := IsoDate.api) Sample.four_players)
    Sample.catan = true /\
  2 <= 4 <= 6.
Proof.
  destruct (compile_playerCount_range (D := IsoDate.api) Sample.four_players 4)
    as (_ & _ & _ & Hm & _); [reflexivity | discriminate |].
  split; [reflexivity | exact (Hm Sample.catan eq_refl)].
Defined.

(** ** Claims about enrichment *)

(** [xs.filter(p).length > 0] says that some element satisfies [p]. *)
Lemma filter_length_pos {A : Type} (p : A -> bool) (l : list A) :
  Nat.ltb 0 (length (List.filter p l)) = true <-> exists x, In x l /\ p x = true.
Proof.
  rewrite Nat.ltb_lt. split.
  - intros Hlen. destruct (List.filter p l) as [|x rest] eqn:E; [simpl in Hlen; lia|].
    exists x. apply filter_In. rewrite E. now left.
  - intros (x & Hin & Hp).
    assert (Hx : In x (List.filter p l)) by (apply filter_In; auto).
    destruct (List.filter p l); [destruct Hx | simpl; lia].
Qed.

Lemma isBorrowed_spec (game : Game.t) :
  Enrichment.isBorrowed game = true <->
  exists b, In b (Game.borrow game) /\ Borrow.returned b = false.
Proof.
  unfold Enrichment.isBorrowed. rewrite filter_length_pos.
  split; intros (b & Hin & Hb); exists b; split; auto.
  - now apply negb_true_iff in Hb.
  - now apply negb_true_iff.
Qed.

Lemma playedBy_spec (uid : option string) (game : Game.t) :
  Enrichment.playedBy uid game = true <->
  exists m, In m (Game.playStatus game) /\ JS.loose_eq (PlayStatus.userId m) uid = true.
Proof. unfold Enrichment.playedBy. apply filter_length_pos. Qed.

Lemma loose_eq_Some (a : option string) (u : string) :
  JS.loose_eq a (Some u) = true <-> a = Some u.
Proof.
  destruct a as [x|]; simpl.
  - rewrite String.eqb_eq. split; congruence.
  - split; discriminate.
Qed.

Lemma loose_eq_None (a : option string) :
  JS.loose_eq a None = true <-> a = None.
Proof. destruct a; simpl; split; congruence. Qed.

(** C2.  In every DTO [formatGames] returns, [isBorrowed] is true exactly
    when some Borrow record of the game has [returned = false]; with no
    Borrow record, or with all of them returned, it is false.  The flag is
    a function of the game's [borrow] array alone, which it only reads. *)
Theorem isBorrowed_iff_open_borrow {D : DateApi} (S : Service.t)
    (user : option GammaUser.t) (games : list Game.t) (fs : list DTO.t) :
  Enrichment.formatGames S games user = Ok fs ->
  Forall2 (fun game dto =>
             (DTO.isBorrowed dto = true <->
              exists b, In b (Game.borrow game) /\ Borrow.returned b = false) /\
             (Game.borrow game = [] -> DTO.isBorrowed dto = false) /\
             ((forall b, In b (Game.borrow game) -> Borrow.returned b = true) ->
              DTO.isBorrowed dto = false))
          games fs.
Proof.
  intros Hfs. apply formatGames_Forall2 in Hfs.
  eapply Forall2_impl; [exact Hfs|]. simpl.
  intros game dto Hd. apply formatGame_fields in Hd as (_ & Hb & _).
  rewrite Hb. split; [apply isBorrowed_spec|]. split.
  - intros Hnil. unfold Enrichment.isBorrowed. now rewrite Hnil.
  - intros Hall. apply not_true_is_false. intros Ht.
    apply isBorrowed_spec in Ht as (b & Hin & Hr).
    rewrite (Hall b Hin) in Hr. discriminate.
Qed.

Lemma isBorrowed_iff_open_borrow_witness :
  exists fs,
    Enrichment.formatGames (D := IsoDate.api) (CatalogStore.services Sample.store)
      [Sample.catan; Sample.quintet; Sample.trio] None = Ok fs /\
    map DTO.isBorrowed fs = [true; false; false] /\
    Forall2 (fun game dto =>
               DTO.isBorrowed dto = true <->
               exists b, In b (Game.borrow game) /\ Borrow.returned b = false)
            [Sample.catan; Sample.quintet; Sample.trio] fs.
Proof.
  eexists. split; [reflexivity|]. split; [reflexivity|].
  eapply Forall2_impl.
  - apply (isBorrowed_iff_open_borrow (D := IsoDate.api)
             (CatalogStore.services Sample.store) None
             [Sample.catan; Sample.quintet; Sample.trio]).
    reflexivity.
  - intros game dto H. exact (proj1 H).
Defined.

Lemma formatGames_anonymous {D : DateApi} (S : Service.t) (games : list Game.t)
    (fs : list DTO.t) :
  Enrichment.formatGames S games None = Ok fs ->
  Forall (fun dto => DTO.isPlayed dto = false /\ DTO.ratingUser dto = None) fs.
Proof.
  intros Hfs. apply formatGames_Forall2 in Hfs.
  induction Hfs as [|game dto games fs Hd _ IH]; constructor; [|exact IH].
  apply formatGame_fields in Hd as (_ & _ & Hp & Hr & _). auto.
Qed.

(** C6.  A request without [req.user] gets, from each of the three listing
    routes, only rows with [isPlayed = false] and [ratingUser = null],
    whatever the services answer. *)
Theorem anonymous_rows_unplayed_unrated {D : DateApi} (S : Service.t)
    (req : Router.Request) (resp : Router.Response) :
  Router.user req = None ->
  Router.getGames S req = Ok resp \/
  Router.getSearch S req = Ok resp \/
  Router.postFilter S req = Ok resp ->
  Forall (fun dto => DTO.isPlayed dto = false /\ DTO.ratingUser dto = None)
         (Router.json resp).
Proof.
  intros Hanon Hroute.
  assert (Hu : Router.requestUser req = None).
  { unfold Router.requestUser. rewrite Hanon. now destruct (Router.isAuthenticated req). }
  destruct Hroute as [Hr | [Hr | Hr]].
  - unfold Router.getGames in Hr. rewrite Hu in Hr.
    destruct (Service.getAllGames S) as [games|e]; simpl in Hr; [|discriminate].
    destruct (Enrichment.formatGames S games None) as [fs|e] eqn:Hfs;
      simpl in Hr; [|discriminate].
    injection Hr as <-. simpl. now apply formatGames_anonymous in Hfs.
  - unfold Router.getSearch in Hr. rewrite Hu in Hr.
    destruct (Service.searchGames S _) as [games|e]; simpl in Hr; [|discriminate].
    destruct (Enrichment.formatGames S games None) as [fs|e] eqn:Hfs;
      simpl in Hr; [|discriminate].
    injection Hr as <-. simpl. now apply formatGames_anonymous in Hfs.
  - unfold Router.postFilter in Hr. rewrite Hu, Hanon in Hr.
    destruct (Service.filterGames S _) as [games|e]; simpl in Hr; [|discriminate].
    destruct (Enrichment.formatGames S games None) as [fs|e] eqn:Hfs;
      simpl in Hr; [|discriminate].
    injection Hr as <-. simpl. now apply formatGames_anonymous in Hfs.
Qed.

Lemma anonymous_rows_unplayed_unrated_witness :
  exists resp,
    Router.postFilter (D := IsoDate.api) (CatalogStore.services Sample.store)
      Sample.anonymous = Ok resp /\
    length (Router.json resp) = 3%nat /\
    Forall (fun dto => DTO.isPlayed dto = false /\ DTO.ratingUser dto = None)
           (Router.json resp).
Proof.
  eexists. split; [reflexivity|]. split; [reflexivity|].
  apply (anonymous_rows_unplayed_unrated (D := IsoDate.api)
           (CatalogStore.services Sample.store) Sample.anonymous);
    [reflexivity | right; right; reflexivity].
Defined.

(** C8.  If the owner name of one game of the batch cannot be resolved,
    [formatGames] rejects, and so does every route that was handed that
    batch: no response, hence no row, is produced. *)
Theorem owner_failure_aborts_request {D : DateApi} (S : Service.t)
    (games : list Game.t) (game : Game.t) (e : Error) :
  In game games ->
  Service.getGameOwnerNameFromId S (Game.gameOwnerId game) = Rejected e ->
  (forall user, exists e', Enrichment.formatGames S games user = Rejected e') /\
  (forall req, Service.getAllGames S = Ok games ->
               exists e', Router.getGames S req = Rejected e') /\
  (forall req,
     Service.searchGames S (default EmptyString (Router.query_term req)) = Ok games ->
     exists e', Router.getSearch S req = Rejected e') /\
  (forall req,
     Service.filterGames S (FilterCompiler.compile (Router.body req)) = Ok games ->
     exists e', Router.postFilter S req = Rejected e').
Proof.
  intros Hin Hown.
  assert (Hfmt : forall user, exists e', Enrichment.formatGames S games user = Rejected e').
  { intros user. unfold Enrichment.formatGames.
    apply (Promise_all_rejects _ (Enrichment.formatGame S user game) e).
    - apply in_map. exact Hin.
    - unfold Enrichment.formatGame. now rewrite Hown. }
  split; [exact Hfmt|]. split; [|split].
  - intros req Hg. unfold Router.getGames. rewrite Hg. simpl.
    destruct (Hfmt (Router.requestUser req)) as [e' ->]. simpl. eauto.
  - intros req Hg. unfold Router.getSearch. rewrite Hg. simpl.
    destruct (Hfmt (Router.requestUser req)) as [e' ->]. simpl. eauto.
  - intros req Hg. unfold Router.postFilter. rewrite Hg. simpl.
    destruct (Hfmt (Router.requestUser req)) as [e' ->]. simpl. eauto.
Qed.

Lemma owner_failure_aborts_request_witness :
  exists e',
    Router.postFilter (D := IsoDate.api) (CatalogStore.services Sample.broken_store)
      Sample.alice = Rejected e'.
Proof.
  destruct (owner_failure_aborts_request (D := IsoDate.api)
              (CatalogStore.services Sample.broken_store)
              [Sample.catan; Sample.orphan; Sample.trio] Sample.orphan
              (ServiceError "unknown owner"))
    as (_ & _ & _ & Hfilter);
    [right; left; reflexivity | reflexivity |].
  apply (Hfilter Sample.alice). reflexivity.
Defined.

(** [formatGames] fulfils as soon as every per-game assembly does. *)
Lemma formatGames_fulfils {D : DateApi} (S : Service.t) (user : option GammaUser.t)
    (games : list Game.t) :
  Forall (fun game => exists dto, Enrichment.formatGame S user game = Ok dto) games ->
  exists fs, Enrichment.formatGames S games user = Ok fs.
Proof.
  intros Hall. unfold Enrichment.formatGames. apply Promise_all_fulfils.
  apply List.Forall_forall. intros p Hp. apply in_map_iff in Hp as (game & <- & Hin).
  rewrite List.Forall_forall in Hall. exact (Hall game Hin).
Qed.

(** The rows of a fulfilled [formatGames], then marked by the loop. *)
Lemma formatGames_then_loop {D : DateApi} (S : Service.t) (user : option GammaUser.t)
    (games : list Game.t) (fs : list DTO.t) (uid : option string) :
  Enrichment.formatGames S games user = Ok fs ->
  exists out,
    Enrichment.playedLoop uid games fs = Ok out /\
    length out = length games /\
    forall i game, games !! i = Some game ->
      exists dto, out !! i = Some dto /\
                  DTO.id dto = Game.id game /\
                  DTO.isPlayed dto = Enrichment.playedBy uid game.
Proof.
  intros Hfs. apply formatGames_Forall2 in Hfs.
  assert (Hlen : length fs = length games)
    by (symmetry; exact (Forall2_length _ _ _ Hfs)).
  destruct (Enrichment.playedLoop uid games fs) as [out|e] eqn:Hloop.
  - destruct (playedLoop_lookup uid games fs out Hlen Hloop) as (Hout & Hrows).
    exists out. split; [reflexivity|]. split; [exact Hout|].
    intros i game Hg. destruct (Hrows i game Hg) as (dto0 & Hd0 & Hd).
    eexists. split; [exact Hd|]. simpl. split; [|reflexivity].
    destruct (Forall2_lookup_l _ _ _ _ _ Hfs Hg) as (dto1 & Hd1 & Hfmt).
    rewrite Hd0 in Hd1. injection Hd1 as <-.
    now apply formatGame_fields in Hfmt as (Hid & _).
  - rewrite playedLoop_marks in Hloop by exact Hlen. discriminate.
Qed.

(** C9.  A fulfilled [formatGames] returns as many DTOs as it was given
    games, and the [i]-th DTO is the one assembled from the [i]-th game;
    hence the loop of the filter route, which pairs [formattedGames[i]] with
    [games[i]], never reads out of range and puts on each row the flag
    computed from that row's own game. *)
Theorem formatGames_keeps_positions {D : DateApi} (S : Service.t)
    (user : option GammaUser.t) (games : list Game.t) (fs : list DTO.t) :
  Enrichment.formatGames S games user = Ok fs ->
  length fs = length games /\
  (forall i game, games !! i = Some game ->
     exists dto, fs !! i = Some dto /\
                 Enrichment.formatGame S user game = Ok dto /\
                 DTO.id dto = Game.id game) /\
  (forall uid, exists out,
     Enrichment.playedLoop uid games fs = Ok out /\
     length out = length games /\
     forall i game, games !! i = Some game ->
       exists dto, out !! i = Some dto /\
                   DTO.id dto = Game.id game /\
                   DTO.isPlayed dto = Enrichment.playedBy uid game).
Proof.
  intros Hfs. pose proof (formatGames_Forall2 S user games fs Hfs) as HF.
  split; [symmetry; exact (Forall2_length _ _ _ HF)|]. split.
  - intros i game Hg.
    destruct (Forall2_lookup_l _ _ _ _ _ HF Hg) as (dto & Hd & Hfmt).
    exists dto. split; [exact Hd|]. split; [exact Hfmt|].
    now apply formatGame_fields in Hfmt as (Hid & _).
  - intros uid. exact (formatGames_then_loop S user games fs uid Hfs).
Qed.

Lemma formatGames_keeps_positions_witness :
  exists fs,
    Enrichment.formatGames (D := IsoDate.api) (CatalogStore.services Sample.store)
      [Sample.trio; Sample.catan] None = Ok fs /\
    map DTO.id fs = ["g3"; "g1"] /\
    length fs = 2%nat.
Proof.
  eexists. split; [reflexivity|]. split; [reflexivity|].
  apply (formatGames_keeps_positions (D := IsoDate.api)
           (CatalogStore.services Sample.store) None [Sample.trio; Sample.catan]).
  reflexivity.
Defined.

(** Presenting the same (game, row) pairs in another order gives the same
    marked rows, in that other order. *)
Lemma playedLoop_Permutation (uid : option string)
    (games games' : list Game.t) (fs fs' : list DTO.t) :
  length fs = length games -> length fs' = length games' ->
  Permutation (zip games fs) (zip games' fs') ->
  exists out out',
    Enrichment.playedLoop uid games fs = Ok out /\
    Enrichment.playedLoop uid games' fs' = Ok out' /\
    Permutation out out'.
Proof.
  intros Hlen Hlen' Hperm.
  rewrite !playedLoop_marks by assumption.
  eexists _, _. split; [reflexivity|]. split; [reflexivity|].
  rewrite (zip_with_zip _ games fs), (zip_with_zip _ games' fs').
  now apply fmap_Permutation.
Qed.

(** The filter route, once the query and the assembly have fulfilled and
    the account lookup has answered. *)
Lemma postFilter_with_user {D : DateApi} (S : Service.t) (req : Router.Request)
    (u : GammaUser.t) (account : option Account.t)
    (games : list Game.t) (fs : list DTO.t) :
  Router.user req = Some u ->
  Service.filterGames S (FilterCompiler.compile (Router.body req)) = Ok games ->
  Enrichment.formatGames S games (Router.requestUser req) = Ok fs ->
  Service.getAccountFromCid S (GammaUser.cid u) = Ok account ->
  Router.postFilter S req =
  (out <- Enrichment.playedLoop (option_map Account.id account) games fs ;;
   Ok {| Router.status := 200; Router.json := out |}).
Proof.
  intros Hu Hg Hfs Hacc. unfold Router.postFilter.
  rewrite Hg. simpl. rewrite Hfs. simpl. rewrite Hu, Hacc. simpl.
  now destruct (Enrichment.playedLoop _ games fs).
Qed.

(** C4.  For a signed-in identity whose account resolves, the filter route
    answers with one row per game of the batch, in the batch's order, and a
    row has [isPlayed = true] exactly when its game carries a PlayMark of
    that account; this holds for a batch of any size, the empty one
    included, and presenting the batch in another order yields the same
    rows in that other order. *)
Theorem postFilter_marks_exactly_played {D : DateApi} (S : Service.t)
    (req : Router.Request) (u : GammaUser.t) (account : Account.t)
    (games : list Game.t) (fs : list DTO.t) :
  Router.user req = Some u ->
  Service.filterGames S (FilterCompiler.compile (Router.body req)) = Ok games ->
  Enrichment.formatGames S games (Router.requestUser req) = Ok fs ->
  Service.getAccountFromCid S (GammaUser.cid u) = Ok (Some account) ->
  exists out,
    Router.postFilter S req = Ok {| Router.status := 200; Router.json := out |} /\
    length out = length games /\
    (forall i game, games !! i = Some game ->
       exists dto, out !! i = Some dto /\
                   DTO.id dto = Game.id game /\
                   (DTO.isPlayed dto = true <->
                    exists m, In m (Game.playStatus game) /\
                              PlayStatus.userId m = Some (Account.id account))) /\
    (forall games' fs',
       length fs' = length games' ->
       Permutation (zip games fs) (zip games' fs') ->
       exists out',
         Enrichment.playedLoop (Some (Account.id account)) games' fs' = Ok out' /\
         Permutation out out').
Proof.
  intros Hu Hg Hfs Hacc.
  destruct (formatGames_then_loop S _ games fs (Some (Account.id account)) Hfs)
    as (out & Hloop & Hlen & Hrows).
  exists out. split; [|split; [exact Hlen|split]].
  - rewrite (postFilter_with_user S req u (Some account) games fs Hu Hg Hfs Hacc).
    simpl. now rewrite Hloop.
  - intros i game Hgame. destruct (Hrows i game Hgame) as (dto & Hd & Hid & Hp).
    exists dto. split; [exact Hd|]. split; [exact Hid|].
    rewrite Hp, playedBy_spec.
    split; intros (m & Hin & Hm); exists m; split; auto; now apply loose_eq_Some.
  - intros games' fs' Hlen' Hperm.
    assert (Hfl : length fs = length games).
    { apply formatGames_Forall2 in Hfs. symmetry. exact (Forall2_length _ _ _ Hfs). }
    destruct (playedLoop_Permutation (Some (Account.id account)) games games' fs fs'
                Hfl Hlen' Hperm) as (o & o' & Ho & Ho' & Hp).
    rewrite Hloop in Ho. injection Ho as <-. eauto.
Qed.

Lemma postFilter_marks_exactly_played_witness :
  exists out,
    Router.postFilter (D := IsoDate.api) (CatalogStore.services Sample.store) Sample.alice
    = Ok {| Router.status := 200; Router.json := out |} /\
    map DTO.id out = ["g1"; "g2"; "g3"] /\
    map DTO.isPlayed out = [true; false; false].
Proof.
  destruct (postFilter_marks_exactly_played (D := IsoDate.api)
              (CatalogStore.services Sample.store) Sample.alice
              {| GammaUser.cid := "alice" |}
              {| Account.id := "acc1"; Account.cid := "alice" |}
              [Sample.catan; Sample.quintet; Sample.trio]
              (match Enrichment.formatGames (D := IsoDate.api)
                       (CatalogStore.services Sample.store)
                       [Sample.catan; Sample.quintet; Sample.trio]
                       (Some {| GammaUser.cid := "alice" |}) with
               | Ok fs => fs
               | Rejected _ => []
               end))
    as (out & Hroute & _); [reflexivity | reflexivity | reflexivity | reflexivity |].
  exists out. split; [exact Hroute|].
  assert (Hout : Ok {| Router.status := 200; Router.json := out |}
                 = Router.postFilter (D := IsoDate.api)
                     (CatalogStore.services Sample.store) Sample.alice)
    by (symmetry; exact Hroute).
  vm_compute in Hout. injection Hout as ->. split; reflexivity.
Defined.

(** C10.  For a signed-in identity whose account lookup answers "absent",
    the filter route still answers 200 with one row per game, and every row
    whose game has no PlayMark with an empty user id has
    [isPlayed = false]. *)
Theorem postFilter_unresolved_account {D : DateApi} (S : Service.t)
    (req : Router.Request) (u : GammaUser.t)
    (games : list Game.t) (fs : list DTO.t) :
  Router.user req = Some u ->
  Service.filterGames S (FilterCompiler.compile (Router.body req)) = Ok games ->
  Enrichment.formatGames S games (Router.requestUser req) = Ok fs ->
  Service.getAccountFromCid S (GammaUser.cid u) = Ok None ->
  exists out,
    Router.postFilter S req = Ok {| Router.status := 200; Router.json := out |} /\
    length out = length games /\
    forall i game, games !! i = Some game ->
      (forall m, In m (Game.playStatus game) -> PlayStatus.userId m <> None) ->
      exists dto, out !! i = Some dto /\
                  DTO.id dto = Game.id game /\
                  DTO.isPlayed dto = false.
Proof.
  intros Hu Hg Hfs Hacc.
  destruct (formatGames_then_loop S _ games fs None Hfs)
    as (out & Hloop & Hlen & Hrows).
  exists out. split; [|split; [exact Hlen|]].
  - rewrite (postFilter_with_user S req u None games fs Hu Hg Hfs Hacc).
    simpl. now rewrite Hloop.
  - intros i game Hgame Hmarks. destruct (Hrows i game Hgame) as (dto & Hd & Hid & Hp).
    exists dto. split; [exact Hd|]. split; [exact Hid|].
    rewrite Hp. apply not_true_is_false. intros Ht.
    apply playedBy_spec in Ht as (m & Hin & Hm).
    apply loose_eq_None in Hm. exact (Hmarks m Hin Hm).
Qed.

Lemma postFilter_unresolved_account_witness :
  exists out,
    Router.postFilter (D := IsoDate.api) (CatalogStore.services Sample.store)
      Sample.stranger
    = Ok {| Router.status := 200; Router.json := out |} /\
    length out = 3%nat.
Proof.
  destruct (postFilter_unresolved_account (D := IsoDate.api)
              (CatalogStore.services Sample.store) Sample.stranger
              {| GammaUser.cid := "mallory" |}
              [Sample.catan; Sample.quintet; Sample.trio]
              (match Enrichment.formatGames (D := IsoDate.api)
                       (CatalogStore.services Sample.store)
                       [Sample.catan; Sample.quintet; Sample.trio]
                       (Some {| GammaUser.cid := "mallory" |}) with
               | Ok fs => fs
               | Rejected _ => []
               end))
    as (out & Hroute & Hlen & _); [reflexivity | reflexivity | reflexivity | reflexivity |].
  exists out. split; [exact Hroute | exact Hlen].
Defined.

(** ** The rating aggregator *)

Lemma sum_Permutation (l l' : list Z) :
  Permutation l l' -> CatalogStore.sum l = CatalogStore.sum l'.
Proof.
  induction 1; simpl; try lia.
Qed.

(** The mean does not depend on the order in which the store keeps its
    Rating records. *)
Lemma getAverageRating_Permutation (st st' : CatalogStore.t) (gameId : string) :
  Permutation (CatalogStore.ratings st) (CatalogStore.ratings st') ->
  CatalogStore.getAverageRating st gameId = CatalogStore.getAverageRating st' gameId.
Proof.
  intros Hperm.
  assert (Hs : Permutation (CatalogStore.scoresFor st gameId)
                           (CatalogStore.scoresFor st' gameId)).
  { unfold CatalogStore.scoresFor. apply Permutation_map.
    clear -Hperm. induction Hperm; simpl.
    - constructor.
    - destruct (String.eqb _ _); [constructor|]; assumption.
    - destruct (String.eqb (Rating.gameId x) gameId),
               (String.eqb (Rating.gameId y) gameId);
        try constructor; apply Permutation_refl.
    - etransitivity; eassumption. }
  unfold CatalogStore.getAverageRating.
  pose proof (Permutation_length Hs) as Hlen.
  pose proof (sum_Permutation _ _ Hs) as Hsum.
  destruct (CatalogStore.scoresFor st gameId) as [|x l],
           (CatalogStore.scoresFor st' gameId) as [|x' l']; try discriminate.
  - reflexivity.
  - now rewrite Hsum, Hlen.
Qed.

(** C7.  The rating aggregator never rejects; for a game without Rating
    records it answers the empty value, and otherwise a rational [avg] with
    [avg * count = sum of the scores], that is, their arithmetic mean.  It
    is a function of the store's Rating records and the game id. *)
Theorem getAverageRating_mean_or_empty (st : CatalogStore.t) (gameId : string) :
  let scores := CatalogStore.scoresFor st gameId in
  Service.getAverageRating (CatalogStore.services st) gameId
  = Ok (CatalogStore.getAverageRating st gameId) /\
  match CatalogStore.getAverageRating st gameId with
  | None => scores = []
  | Some avg =>
      (0 < length scores)%nat /\
      (avg * inject_Z (Z.of_nat (length scores)) == inject_Z (CatalogStore.sum scores))%Q
  end.
Proof.
  intros scores. split; [reflexivity|].
  unfold CatalogStore.getAverageRating. fold scores.
  destruct scores as [|x l] eqn:E; [reflexivity|].
  split; [simpl; lia|].
  set (n := length (x :: l)). set (s := CatalogStore.sum (x :: l)).
  assert (Hn : n <> 0%nat) by (unfold n; simpl; lia).
  unfold Qeq, Qmult, inject_Z. simpl Qnum. simpl Qden.
  rewrite Pos.mul_1_r, Z.mul_1_r.
  rewrite <- (positive_nat_Z (Pos.of_nat n)), Nat2Pos.id by exact Hn.
  reflexivity.
Qed.

(** * Further properties of the routes *)

(** ** The filter compiler, field by field *)

Section CompilerFields.
Context {D : DateApi}.
Import FilterCompiler.

Ltac case_guards :=
  repeat match goal with
         | |- context [when true ?u ?f] => change (when true u f) with (u f)
         | |- context [when false ?u ?f] => change (when false u f) with f
         | |- context [when ?c _ _] => destruct c
         end.

(** The text predicates are written by their own step only. *)
Lemma compile_text_fields (body : Body.t) :
  let f := compile body in
  Filter.name f =
    (if JS.truthy_str (Body.name body)
     then Some {| Filter.contains := str_val (Body.name body);
                  Filter.mode := Filter.insensitive |} else None) /\
  Filter.platform f =
    (if JS.truthy_str (Body.platform body)
     then Some {| Filter.platform_name := str_val (Body.platform body) |} else None) /\
  Filter.location f =
    (if JS.truthy_str (Body.location body)
     then Some {| Filter.contains := str_val (Body.location body);
                  Filter.mode := Filter.insensitive |} else None).
Proof.
  unfold compile. cbv zeta.
  destruct (JS.truthy_str (Body.name body)),
           (JS.truthy_str (Body.platform body)),
           (JS.truthy_str (Body.location body));
    case_guards; repeat split; reflexivity.
Qed.

(** The play-time predicate is written by its own step only. *)
Lemma compile_playtimeMinutes (body : Body.t) :
  Filter.playtimeMinutes (compile body) =
  (if JS.truthy_num (Body.playtimeMax body) || JS.truthy_num (Body.playtimeMin body)
   then Some (playtime_range body) else None).
Proof.
  unfold compile. cbv zeta.
  destruct (JS.truthy_num (Body.playtimeMax body) || JS.truthy_num (Body.playtimeMin body));
    case_guards; reflexivity.
Qed.

End CompilerFields.

Lemma string_min_nonempty (s : string) :
  Schema.string_min 1 s = true -> s <> "".
Proof. intros H ->. discriminate. Qed.

Lemma string_min_max_nonempty (hi : nat) (s : string) :
  Schema.string_min_max 1 hi s = true -> s <> "".
Proof. intros H ->. discriminate. Qed.

Lemma int_min_nonzero (n : Z) : Schema.int_min 1 n = true -> n <> 0.
Proof. unfold Schema.int_min. intros H ->. discriminate. Qed.

Lemma int_min_max_nonzero (hi n : Z) : Schema.int_min_max 1 hi n = true -> n <> 0.
Proof.
  unfold Schema.int_min_max. intros H ->. discriminate.
Qed.

(** X1.  The compiler never reads [body.owner]: two bodies that differ only
    in [owner] compile to the same filter. *)
Theorem compile_ignores_owner {D : DateApi} (o : option string) (body : Body.t) :
  FilterCompiler.compile (BodyUpdate.with_owner o body) = FilterCompiler.compile body.
Proof. reflexivity. Qed.

(** X2.  For a body the schema accepts, every guard of the handler is true
    exactly when its field is present, so the compiled filter carries a
    predicate for precisely the fields supplied ([owner] excepted): a
    text field gives a case-insensitive [contains] (or the platform name),
    the date fields give the bounds supplied, [playerCount] gives both player
    bounds, and the play-time fields give the bounds supplied. *)
Theorem compile_of_valid_body {D : DateApi} {C : ZodChecks} (body : Body.t) :
  z_datetime "" = false ->
  Schema.filterGamesSchema body = true ->
  let f := FilterCompiler.compile body in
  Filter.name f =
    option_map (fun s => {| Filter.contains := s; Filter.mode := Filter.insensitive |})
               (Body.name body) /\
  Filter.dateReleased f =
    match Body.releaseAfter body, Body.releaseBefore body with
    | None, None => None
    | after, before =>
        Some {| Filter.gte := option_map Date_new after;
                Filter.lte := option_map Date_new before |}
    end /\
  Filter.playerMax f =
    option_map (fun n => {| Filter.gte := Some n; Filter.lte := None |})
               (Body.playerCount body) /\
  Filter.playerMin f =
    option_map (fun n => {| Filter.gte := None; Filter.lte := Some n |})
               (Body.playerCount body) /\
  Filter.platform f =
    option_map (fun s => {| Filter.platform_name := s |}) (Body.platform body) /\
  Filter.playtimeMinutes f =
    match Body.playtimeMin body, Body.playtimeMax body with
    | None, None => None
    | lo, hi => Some {| Filter.gte := lo; Filter.lte := hi |}
    end /\
  Filter.location f =
    option_map (fun s => {| Filter.contains := s; Filter.mode := Filter.insensitive |})
               (Body.location body).
Proof.
  intros Hdt Hvalid f.
  unfold Schema.filterGamesSchema in Hvalid. rewrite !andb_true_iff in Hvalid.
  destruct Hvalid as ((((((((Hn & Hp) & Hb) & Ha) & Hlo) & Hhi) & Hpc) & _) & Hl).
  assert (Hdate : forall s, z_datetime s = true -> s <> "").
  { intros s Hs ->. rewrite Hdt in Hs. discriminate. }
  destruct (compile_text_fields body) as (Hname & Hplat & Hloc).
  destruct (compile_playerCount body) as (Hmax & Hmin).
  pose proof (compile_dateReleased body) as Hrel.
  pose proof (compile_playtimeMinutes body) as Htime.
  fold f in Hname, Hplat, Hloc, Hmax, Hmin, Hrel, Htime.
  rewrite Hname, Hplat, Hloc, Hmax, Hmin, Hrel, Htime.
  clear Hname Hplat Hloc Hmax Hmin Hrel Htime.
  unfold FilterCompiler.playtime_range. cbv zeta.
  repeat split.
  - destruct (Body.name body) as [s|]; [|reflexivity]. simpl in Hn.
    now rewrite truthy_str_Some by (eapply string_min_max_nonempty; eassumption).
  - destruct (Body.releaseAfter body) as [a|], (Body.releaseBefore body) as [b|];
      simpl in Ha, Hb;
      rewrite ?(truthy_str_Some a), ?(truthy_str_Some b) by auto; reflexivity.
  - destruct (Body.playerCount body) as [n|]; [|reflexivity]. simpl in Hpc.
    now rewrite truthy_num_Some by (eapply int_min_max_nonzero; eassumption).
  - destruct (Body.playerCount body) as [n|]; [|reflexivity]. simpl in Hpc.
    now rewrite truthy_num_Some by (eapply int_min_max_nonzero; eassumption).
  - destruct (Body.platform body) as [s|]; [|reflexivity]. simpl in Hp.
    now rewrite truthy_str_Some by (eapply string_min_nonempty; eassumption).
  - destruct (Body.playtimeMin body) as [lo|], (Body.playtimeMax body) as [hi|];
      simpl in Hlo, Hhi;
      rewrite ?(truthy_num_Some lo), ?(truthy_num_Some hi)
        by (eapply int_min_nonzero; eassumption); reflexivity.
  - destruct (Body.location body) as [s|]; [|reflexivity]. simpl in Hl.
    now rewrite truthy_str_Some by (eapply string_min_max_nonempty; eassumption).
Qed.

Lemma compile_of_valid_body_witness :
  let f := FilterCompiler.compile (D := IsoDate.api) SampleWrites.valid_body in
  Filter.name f
  = Some {| Filter.contains := "catan"; Filter.mode := Filter.insensitive |} /\
  Filter.dateReleased f
  = Some {| Filter.gte := Some 631152000000; Filter.lte := None |} /\
  Filter.playtimeMinutes f = Some {| Filter.gte := None; Filter.lte := Some 90 |}.
Proof.
  destruct (compile_of_valid_body (D := IsoDate.api) (C := SampleWrites.zod)
              SampleWrites.valid_body)
    as (Hname & Hdate & _ & _ & _ & Htime & _); [reflexivity | reflexivity |].
  split; [exact Hname|]. split; [exact Hdate | exact Htime].
Defined.

(** X3.  [addGameSchema] checks [playerMin] and [playerMax] separately and
    alike: exchanging the two never changes whether a body is accepted, so
    the schema admits a body with [playerMin > playerMax] whenever it admits
    the mirrored one. *)
Theorem addGameSchema_ignores_player_order {C : ZodChecks} (body : AddBody.t) :
  Schema.addGameSchema (BodyUpdate.swap_players body) = Schema.addGameSchema body.
Proof.
  unfold Schema.addGameSchema, BodyUpdate.swap_players. simpl.
  destruct (Schema.int_min 1 (AddBody.playerMin body)),
           (Schema.int_min 1 (AddBody.playerMax body));
    rewrite ?andb_true_r, ?andb_false_r; simpl; rewrite ?andb_false_r; reflexivity.
Qed.

(** ** DTO assembly in full *)

Lemma formatGame_fulfils_iff {D : DateApi} (S : Service.t)
    (user : option GammaUser.t) (game : Game.t) :
  (exists dto, Enrichment.formatGame S user game = Ok dto) <->
  (exists name, Service.getGameOwnerNameFromId S (Game.gameOwnerId game) = Ok name) /\
  (exists avg, Service.getAverageRating S (Game.id game) = Ok avg) /\
  (forall u, user = Some u ->
     exists r, Service.getUserRating S (Game.id game) (GammaUser.cid u) = Ok r).
Proof.
  unfold Enrichment.formatGame. split.
  - intros [dto Hd].
    destruct (Service.getGameOwnerNameFromId S _) as [o|e]; simpl in Hd; [|discriminate].
    destruct (Service.getAverageRating S _) as [avg|e]; simpl in Hd; [|discriminate].
    split; [eauto|]. split; [eauto|]. intros u ->.
    destruct (Service.getUserRating S _ _) as [r|e]; simpl in Hd; [eauto|discriminate].
  - intros ((o & ->) & (avg & ->) & Hr). simpl.
    destruct user as [u|]; [|simpl; eauto].
    destruct (Hr u eq_refl) as [r ->]. simpl. eauto.
Qed.

(** X4.  [formatGames] fulfils exactly when, for every game of the batch,
    the owner-name lookup and the average-rating lookup fulfil and, for a
    signed-in user, so does that user's rating lookup; for an anonymous
    caller the user-rating service plays no part. *)
Theorem formatGames_fulfils_iff {D : DateApi} (S : Service.t)
    (user : option GammaUser.t) (games : list Game.t) :
  (exists fs, Enrichment.formatGames S games user = Ok fs) <->
  (forall game, In game games ->
     (exists name, Service.getGameOwnerNameFromId S (Game.gameOwnerId game) = Ok name) /\
     (exists avg, Service.getAverageRating S (Game.id game) = Ok avg) /\
     (forall u, user = Some u ->
        exists r, Service.getUserRating S (Game.id game) (GammaUser.cid u) = Ok r)).
Proof.
  split.
  - intros [fs Hfs] game Hin. apply formatGame_fulfils_iff.
    apply formatGames_Forall2 in Hfs.
    apply list_elem_of_In, list_elem_of_lookup in Hin as [i Hi].
    destruct (Forall2_lookup_l _ _ _ _ _ Hfs Hi) as (dto & _ & Hd). eauto.
  - intros Hall. apply formatGames_fulfils. apply List.Forall_forall.
    intros game Hin. apply formatGame_fulfils_iff. exact (Hall game Hin).
Qed.

(** X5.  Every DTO of a fulfilled [formatGames] carries the stored columns
    of its game unchanged, and its [owner], [ratingAvg] and (for a signed-in
    user) [ratingUser] are what the services answered for that game. *)
Theorem formatGames_copies_columns {D : DateApi} (S : Service.t)
    (user : option GammaUser.t) (games : list Game.t) (fs : list DTO.t) :
  Enrichment.formatGames S games user = Ok fs ->
  Forall2 (fun game dto =>
             DTO.id dto = Game.id game /\
             DTO.name dto = Game.name game /\
             DTO.description dto = Game.description game /\
             DTO.platformName dto = Game.platformName game /\
             DTO.playtimeMinutes dto = Game.playtimeMinutes game /\
             DTO.playerMin dto = Game.playerMin game /\
             DTO.playerMax dto = Game.playerMax game /\
             DTO.location dto = Game.location game /\
             Service.getGameOwnerNameFromId S (Game.gameOwnerId game) = Ok (DTO.owner dto) /\
             Service.getAverageRating S (Game.id game) = Ok (DTO.ratingAvg dto) /\
             (forall u, user = Some u ->
                Service.getUserRating S (Game.id game) (GammaUser.cid u)
                = Ok (DTO.ratingUser dto)))
          games fs.
Proof.
  intros Hfs. apply formatGames_Forall2 in Hfs.
  eapply Forall2_impl; [exact Hfs|]. simpl. intros game dto Hd.
  unfold Enrichment.formatGame in Hd.
  destruct (Service.getGameOwnerNameFromId S _) as [o|e]; simpl in Hd; [|discriminate].
  destruct (Service.getAverageRating S _) as [avg|e]; simpl in Hd; [|discriminate].
  destruct user as [u|].
  - destruct (Service.getUserRating S _ _) as [r|e] eqn:Hr; simpl in Hd; [|discriminate].
    injection Hd as <-. simpl. repeat split; try reflexivity.
    intros u' [= <-]. exact Hr.
  - simpl in Hd. injection Hd as <-. simpl. repeat split; try reflexivity.
    intros u' [=].
Qed.

Lemma formatGames_copies_columns_witness :
  exists fs,
    Enrichment.formatGames (D := IsoDate.api) (CatalogStore.services Sample.store)
      [Sample.catan; Sample.trio] (Some {| GammaUser.cid := "alice" |}) = Ok fs /\
    map DTO.name fs = ["Settlers of Catan"; "Trio"] /\
    map DTO.ratingUser fs = [Some 4; Some 2] /\
    Forall2 (fun game dto => DTO.location dto = Game.location game)
            [Sample.catan; Sample.trio] fs.
Proof.
  eexists. split; [reflexivity|]. split; [reflexivity|]. split; [reflexivity|].
  eapply Forall2_impl.
  - apply (formatGames_copies_columns (D := IsoDate.api)
             (CatalogStore.services Sample.store) (Some {| GammaUser.cid := "alice" |})
             [Sample.catan; Sample.trio]).
    reflexivity.
  - intros game dto H. exact (proj1 (proj2 (proj2 (proj2 (proj2 (proj2 (proj2 (proj2 H)))))))).
Defined.

(** ** The calendar date of a DTO *)

Lemma split_head_prefix (c : ascii) (s : string) :
  String.prefix (JS.split_head c s) s = true.
Proof.
  induction s as [|a s IH]; simpl; [reflexivity|].
  destruct (Ascii.eqb a c); simpl; [reflexivity|].
  destruct (ascii_dec a a); [exact IH | contradiction].
Qed.

Lemma split_head_free (c : ascii) (s : string) (i : nat) :
  get i (JS.split_head c s) <> Some c.
Proof.
  revert i. induction s as [|a s IH]; intros i; simpl; [discriminate|].
  destruct (Ascii.eqb_spec a c) as [->|Hne]; simpl; [discriminate|].
  destruct i as [|i]; [congruence | apply IH].
Qed.

Lemma split_head_app (c : ascii) (p rest : string) :
  (forall i, get i p <> Some c) ->
  JS.split_head c (String.append p (String c rest)) = p.
Proof.
  induction p as [|a p IH]; intros Hfree; simpl.
  - now rewrite Ascii.eqb_refl.
  - destruct (Ascii.eqb_spec a c) as [->|Hne].
    + exfalso. exact (Hfree 0%nat eq_refl).
    + f_equal. apply IH. intros i. exact (Hfree (Datatypes.S i)).
Qed.

(** X6.  [releaseDate] is the ISO text of [dateReleased] cut before its
    first ["T"]: it is a prefix of that text, contains no ["T"], and when
    the text reads [date T time] with no ["T"] inside [date], it is [date]. *)
Theorem formatGames_releaseDate {D : DateApi} (S : Service.t)
    (user : option GammaUser.t) (games : list Game.t) (fs : list DTO.t) :
  Enrichment.formatGames S games user = Ok fs ->
  Forall2 (fun game dto =>
             let iso := toISOString (Game.dateReleased game) in
             String.prefix (DTO.releaseDate dto) iso = true /\
             (forall i, get i (DTO.releaseDate dto) <> Some "T"%char) /\
             (forall date time : string,
                iso = String.append date (String "T" time) ->
                (forall i, get i date <> Some "T"%char) ->
                DTO.releaseDate dto = date))
          games fs.
Proof.
  intros Hfs. apply formatGames_Forall2 in Hfs.
  eapply Forall2_impl; [exact Hfs|]. simpl. intros game dto Hd.
  assert (Hrel : DTO.releaseDate dto
                 = JS.split_head "T" (toISOString (Game.dateReleased game))).
  { unfold Enrichment.formatGame in Hd.
    destruct (Service.getGameOwnerNameFromId S _); simpl in Hd; [|discriminate].
    destruct (Service.getAverageRating S _); simpl in Hd; [|discriminate].
    destruct user as [u|];
      [destruct (Service.getUserRating S _ _); simpl in Hd; [|discriminate]|];
      simpl in Hd; injection Hd as <-; reflexivity. }
  rewrite Hrel. split; [apply split_head_prefix|]. split; [apply split_head_free|].
  intros date time -> Hfree. now apply split_head_app.
Qed.

Lemma formatGames_releaseDate_witness :
  exists fs,
    Enrichment.formatGames (D := IsoDate.api) (CatalogStore.services Sample.store)
      [Sample.trio] None = Ok fs /\
    map DTO.releaseDate fs = ["2021-03-15"] /\
    Forall2 (fun game dto =>
               String.prefix (DTO.releaseDate dto)
                 (IsoDate.format (Game.dateReleased game)) = true)
            [Sample.trio] fs.
Proof.
  eexists. split; [reflexivity|]. split; [reflexivity|].
  eapply Forall2_impl.
  - apply (formatGames_releaseDate (D := IsoDate.api)
             (CatalogStore.services Sample.store) None [Sample.trio]).
    reflexivity.
  - intros game dto H. exact (proj1 H).
Defined.

(** ** The listing routes and the played flag *)

Lemma formatGames_unplayed {D : DateApi} (S : Service.t) (user : option GammaUser.t)
    (games : list Game.t) (fs : list DTO.t) :
  Enrichment.formatGames S games user = Ok fs ->
  Forall (fun dto => DTO.isPlayed dto = false) fs.
Proof.
  intros Hfs. apply formatGames_Forall2 in Hfs.
  induction Hfs as [|game dto games fs Hd _ IH]; constructor; [|exact IH].
  now apply formatGame_fields in Hd as (_ & _ & Hp & _).
Qed.

(** X7.  [GET /] and [GET /search] never compute the played flag: every
    row they return has [isPlayed = false], for a signed-in caller too and
    whatever PlayMarks the games carry. *)
Theorem listing_routes_never_mark_played {D : DateApi} (S : Service.t)
    (req : Router.Request) (resp : Router.Response) :
  Router.getGames S req = Ok resp \/ Router.getSearch S req = Ok resp ->
  Forall (fun dto => DTO.isPlayed dto = false) (Router.json resp).
Proof.
  intros [Hr | Hr].
  - unfold Router.getGames in Hr.
    destruct (Service.getAllGames S) as [games|e]; simpl in Hr; [|discriminate].
    destruct (Enrichment.formatGames S games _) as [fs|e] eqn:Hfs;
      simpl in Hr; [|discriminate].
    injection Hr as <-. simpl. now apply formatGames_unplayed in Hfs.
  - unfold Router.getSearch in Hr.
    destruct (Service.searchGames S _) as [games|e]; simpl in Hr; [|discriminate].
    destruct (Enrichment.formatGames S games _) as [fs|e] eqn:Hfs;
      simpl in Hr; [|discriminate].
    injection Hr as <-. simpl. now apply formatGames_unplayed in Hfs.
Qed.

Lemma listing_routes_never_mark_played_witness :
  exists resp,
    Router.getGames (D := IsoDate.api) (CatalogStore.services Sample.store) Sample.alice
    = Ok resp /\
    Enrichment.playedBy (Some "acc1") Sample.catan = true /\
    map DTO.id (Router.json resp) = ["g1"; "g2"; "g3"] /\
    Forall (fun dto => DTO.isPlayed dto = false) (Router.json resp).
Proof.
  eexists. split; [reflexivity|]. split; [reflexivity|]. split; [reflexivity|].
  apply (listing_routes_never_mark_played (D := IsoDate.api)
           (CatalogStore.services Sample.store) Sample.alice).
  left. reflexivity.
Defined.

Lemma set_isPlayed_back (v : bool) (dto : DTO.t) :
  DTO.isPlayed dto = false ->
  DTO.set_isPlayed false (DTO.set_isPlayed v dto) = dto.
Proof. destruct dto. simpl. now intros ->. Qed.

(** X8.  On [POST /filter] for a signed-in caller, the loop rewrites
    nothing but [isPlayed]: the response rows are the rows of [formatGames],
    each with the flag of its own game, and resetting the flag gives back
    the rows of [formatGames]. *)
Theorem postFilter_changes_only_isPlayed {D : DateApi} (S : Service.t)
    (req : Router.Request) (u : GammaUser.t) (account : option Account.t)
    (games : list Game.t) (fs : list DTO.t) :
  Router.user req = Some u ->
  Service.filterGames S (FilterCompiler.compile (Router.body req)) = Ok games ->
  Enrichment.formatGames S games (Router.requestUser req) = Ok fs ->
  Service.getAccountFromCid S (GammaUser.cid u) = Ok account ->
  let uid := option_map Account.id account in
  let out := zip_with (fun game dto => DTO.set_isPlayed (Enrichment.playedBy uid game) dto)
                      games fs in
  Router.postFilter S req = Ok {| Router.status := 200; Router.json := out |} /\
  map (DTO.set_isPlayed false) out = fs.
Proof.
  intros Hu Hg Hfs Hacc uid out.
  pose proof (formatGames_Forall2 S _ games fs Hfs) as HF.
  assert (Hlen : length fs = length games)
    by (symmetry; exact (Forall2_length _ _ _ HF)).
  split.
  - rewrite (postFilter_with_user S req u account games fs Hu Hg Hfs Hacc).
    fold uid. now rewrite (playedLoop_marks uid games fs Hlen).
  - pose proof (formatGames_unplayed S _ games fs Hfs) as Hun.
    unfold out. clear -HF Hun.
    induction HF as [|game dto games fs _ _ IH]; [reflexivity|].
    inversion Hun as [|? ? Hd Hrest]; subst. simpl.
    rewrite (set_isPlayed_back _ dto Hd). f_equal. exact (IH Hrest).
Qed.

Lemma postFilter_changes_only_isPlayed_witness :
  exists out fs,
    Router.postFilter (D := IsoDate.api) (CatalogStore.services Sample.store) Sample.alice
    = Ok {| Router.status := 200; Router.json := out |} /\
    map (DTO.set_isPlayed false) out = fs /\
    map DTO.owner fs = ["Alice"; "Alice"; "Alice"].
Proof.
  destruct (postFilter_changes_only_isPlayed (D := IsoDate.api)
              (CatalogStore.services Sample.store) Sample.alice
              {| GammaUser.cid := "alice" |}
              (Some {| Account.id := "acc1"; Account.cid := "alice" |})
              [Sample.catan; Sample.quintet; Sample.trio]
              (match Enrichment.formatGames (D := IsoDate.api)
                       (CatalogStore.services Sample.store)
                       [Sample.catan; Sample.quintet; Sample.trio]
                       (Some {| GammaUser.cid := "alice" |}) with
               | Ok fs => fs
               | Rejected _ => []
               end))
    as (Hroute & Hback); [reflexivity | reflexivity | reflexivity | reflexivity |].
  eexists _, _. split; [exact Hroute|]. split; [exact Hback | reflexivity].
Defined.

(** X9.  On [POST /filter] for a signed-in caller whose account lookup
    answers "absent", a row is flagged played exactly when its game carries
    a PlayMark whose [userId] is null or undefined: the loose [==] against
    an undefined id matches those marks and no others. *)
Theorem postFilter_unresolved_flags_null_marks {D : DateApi} (S : Service.t)
    (req : Router.Request) (u : GammaUser.t)
    (games : list Game.t) (fs : list DTO.t) :
  Router.user req = Some u ->
  Service.filterGames S (FilterCompiler.compile (Router.body req)) = Ok games ->
  Enrichment.formatGames S games (Router.requestUser req) = Ok fs ->
  Service.getAccountFromCid S (GammaUser.cid u) = Ok None ->
  exists out,
    Router.postFilter S req = Ok {| Router.status := 200; Router.json := out |} /\
    forall i game, games !! i = Some game ->
      exists dto, out !! i = Some dto /\
                  (DTO.isPlayed dto = true <->
                   exists m, In m (Game.playStatus game) /\ PlayStatus.userId m = None).
Proof.
  intros Hu Hg Hfs Hacc.
  destruct (formatGames_then_loop S _ games fs None Hfs)
    as (out & Hloop & _ & Hrows).
  exists out. split.
  - rewrite (postFilter_with_user S req u None games fs Hu Hg Hfs Hacc).
    simpl. now rewrite Hloop.
  - intros i game Hgame. destruct (Hrows i game Hgame) as (dto & Hd & _ & Hp).
    exists dto. split; [exact Hd|]. rewrite Hp, playedBy_spec.
    split; intros (m & Hin & Hm); exists m; split; auto; now apply loose_eq_None.
Qed.

Lemma postFilter_unresolved_flags_null_marks_witness :
  exists out,
    Router.postFilter (D := IsoDate.api) (CatalogStore.services SampleMarks.store)
      Sample.stranger
    = Ok {| Router.status := 200; Router.json := out |} /\
    map DTO.isPlayed out = [true; false].
Proof.
  destruct (postFilter_unresolved_flags_null_marks (D := IsoDate.api)
              (CatalogStore.services SampleMarks.store) Sample.stranger
              {| GammaUser.cid := "mallory" |}
              [SampleMarks.haunted; Sample.quintet]
              (match Enrichment.formatGames (D := IsoDate.api)
                       (CatalogStore.services SampleMarks.store)
                       [SampleMarks.haunted; Sample.quintet]
                       (Some {| GammaUser.cid := "mallory" |}) with
               | Ok fs => fs
               | Rejected _ => []
               end))
    as (out & Hroute & _); [reflexivity | reflexivity | reflexivity | reflexivity |].
  exists out. split; [exact Hroute|].
  assert (Hout : Ok {| Router.status := 200; Router.json := out |}
                 = Router.postFilter (D := IsoDate.api)
                     (CatalogStore.services SampleMarks.store) Sample.stranger)
    by (symmetry; exact Hroute).
  vm_compute in Hout. injection Hout as ->. reflexivity.
Defined.


(** ** [GET /owners] *)

(** X11.  [GET /owners] answers exactly when the owner listing fulfils and
    every listed owner's name resolves; it then answers 200 with one entry
    per owner, in the listing's order, each carrying the owner's id and the
    resolved name.  One unresolved name leaves the request without a
    response. *)
Theorem getOwners_fulfils_iff (S : Service.t)
    (getGameOwnersWithGames : Result (list GameOwner.t)) :
  ((exists resp, OwnersRoute.getOwners S getGameOwnersWithGames = Ok resp) <->
   (exists owners,
      getGameOwnersWithGames = Ok owners /\
      forall owner, In owner owners ->
        exists name, Service.getGameOwnerNameFromId S (GameOwner.id owner) = Ok name)) /\
  (forall resp, OwnersRoute.getOwners S getGameOwnersWithGames = Ok resp ->
     OwnersRoute.status resp = 200 /\
     exists owners,
       getGameOwnersWithGames = Ok owners /\
       Forall2 (fun owner dto =>
                  OwnerDTO.id dto = GameOwner.id owner /\
                  Service.getGameOwnerNameFromId S (GameOwner.id owner)
                  = Ok (OwnerDTO.name dto))
               owners (OwnersRoute.json resp)).
Proof.
  assert (Hrow : forall owner dto, OwnersRoute.formatOwner S owner = Ok dto ->
            OwnerDTO.id dto = GameOwner.id owner /\
            Service.getGameOwnerNameFromId S (GameOwner.id owner) = Ok (OwnerDTO.name dto)).
  { intros owner dto. unfold OwnersRoute.formatOwner.
    destruct (Service.getGameOwnerNameFromId S _) as [n|e]; simpl; [|discriminate].
    intros [= <-]. auto. }
  assert (Hshape : forall resp, OwnersRoute.getOwners S getGameOwnersWithGames = Ok resp ->
     OwnersRoute.status resp = 200 /\
     exists owners,
       getGameOwnersWithGames = Ok owners /\
       Forall2 (fun owner dto =>
                  OwnerDTO.id dto = GameOwner.id owner /\
                  Service.getGameOwnerNameFromId S (GameOwner.id owner)
                  = Ok (OwnerDTO.name dto))
               owners (OwnersRoute.json resp)).
  { intros resp Hr. unfold OwnersRoute.getOwners in Hr.
    destruct getGameOwnersWithGames as [owners|e]; simpl in Hr; [|discriminate].
    destruct (Promise_all _) as [l|e] eqn:Hl; simpl in Hr; [|discriminate].
    injection Hr as <-. simpl. split; [reflexivity|]. exists owners. split; [reflexivity|].
    apply Promise_all_Forall2, Forall2_fmap_l in Hl.
    eapply Forall2_impl; [exact Hl|]. simpl. exact Hrow. }
  split; [split|exact Hshape].
  - intros [resp Hr]. destruct (Hshape resp Hr) as (_ & owners & Ho & HF).
    exists owners. split; [exact Ho|]. intros owner Hin.
    apply list_elem_of_In, list_elem_of_lookup in Hin as [i Hi].
    destruct (Forall2_lookup_l _ _ _ _ _ HF Hi) as (dto & _ & _ & Hn). eauto.
  - intros (owners & -> & Hall). unfold OwnersRoute.getOwners. simpl.
    destruct (Promise_all_fulfils (map (OwnersRoute.formatOwner S) owners)) as [l ->].
    + apply List.Forall_forall. intros p Hp.
      apply in_map_iff in Hp as (owner & <- & Hin).
      destruct (Hall owner Hin) as [n Hn]. unfold OwnersRoute.formatOwner.
      rewrite Hn. simpl. eauto.
    + simpl. eauto.
Qed.

(** ** The write routes *)

Section WriteRoutes.
Context {W : Type} (S : WriteService.t W).
Import Writes.

Ltac run_handler :=
  unfold postAdd, postRemove, postMarkPlayed, postMarkNotPlayed,
         try_catch, and_then, ret.

(** X12.  [POST /remove] always answers, with 401, 200 or 400: 401
    exactly for a request without a user (and then no service runs, the
    state is untouched); 200 exactly when the owner lookup and then
    [removeGame], called with that owner id, both return; and when either
    throws an [Error], 400 with that error's own message, in the state the
    throwing call left. *)
Theorem postRemove_outcomes (req : Request RemoveBody.t) (w : W) :
  exists status message,
    fst (postRemove S req w) = Returns (Json status message) /\
    (status = 401 \/ status = 200 \/ status = 400) /\
    (status = 401 <-> user req = None) /\
    (status = 200 <->
     exists u ownerId w1 w2,
       user req = Some u /\
       WriteService.getGameOwnerIdFromCid S (GammaUser.cid u) w = (Returns ownerId, w1) /\
       WriteService.removeGame S (RemoveBody.id (body req)) ownerId w1 = (Returns tt, w2)) /\
    (user req = None -> snd (postRemove S req w) = w) /\
    (forall u m w1,
       user req = Some u ->
       WriteService.getGameOwnerIdFromCid S (GammaUser.cid u) w
       = (Throws (ThrownError m), w1) ->
       postRemove S req w = (Returns (Json 400 m), w1)) /\
    (forall u ownerId m w1 w2,
       user req = Some u ->
       WriteService.getGameOwnerIdFromCid S (GammaUser.cid u) w = (Returns ownerId, w1) ->
       WriteService.removeGame S (RemoveBody.id (body req)) ownerId w1
       = (Throws (ThrownError m), w2) ->
       postRemove S req w = (Returns (Json 400 m), w2)).
Proof.
  run_handler. destruct (user req) as [u|].
  - destruct (WriteService.getGameOwnerIdFromCid S (GammaUser.cid u) w)
      as [[ownerId|t] w1] eqn:Hown.
    + destruct (WriteService.removeGame S (RemoveBody.id (body req)) ownerId w1)
        as [[[]|t] w2] eqn:Hrem.
      * exists 200, "Game removed". simpl. repeat split; auto; try discriminate; try lia.
        -- intros _. exists u, ownerId, w1, w2. auto.
        -- intros u' m w1' [= <-]. rewrite Hown. discriminate.
        -- intros u' o' m w1' w2' [= <-]. rewrite Hown. intros [= <- <-].
           rewrite Hrem. discriminate.
      * destruct t as [m|].
        -- exists 400, m. simpl. repeat split; auto; try discriminate; try lia.
           ++ intros (u' & o' & w1' & w2' & [= <-] & Ho & Hr).
              rewrite Hown in Ho. injection Ho as <- <-. rewrite Hrem in Hr. discriminate.
           ++ intros u' m' w1' [= <-]. rewrite Hown. discriminate.
           ++ intros u' o' m' w1' w2' [= <-]. rewrite Hown. intros [= <- <-].
              rewrite Hrem. now intros [= <- <-].
        -- exists 400, "Error removing game". simpl.
           repeat split; auto; try discriminate; try lia.
           ++ intros (u' & o' & w1' & w2' & [= <-] & Ho & Hr).
              rewrite Hown in Ho. injection Ho as <- <-. rewrite Hrem in Hr. discriminate.
           ++ intros u' m' w1' [= <-]. rewrite Hown. discriminate.
           ++ intros u' o' m' w1' w2' [= <-]. rewrite Hown. intros [= <- <-].
              rewrite Hrem. discriminate.
    + destruct t as [m|].
      * exists 400, m. simpl. repeat split; auto; try discriminate; try lia.
        -- intros (u' & o' & w1' & w2' & [= <-] & Ho & _). rewrite Hown in Ho. discriminate.
        -- intros u' m' w1' [= <-]. rewrite Hown. now intros [= <- <-].
        -- intros u' o' m' w1' w2' [= <-]. rewrite Hown. discriminate.
      * exists 400, "Error removing game". simpl.
        repeat split; auto; try discriminate; try lia.
        -- intros (u' & o' & w1' & w2' & [= <-] & Ho & _). rewrite Hown in Ho. discriminate.
        -- intros u' m' w1' [= <-]. rewrite Hown. discriminate.
        -- intros u' o' m' w1' w2' [= <-]. rewrite Hown. discriminate.
  - exists 401, "Must be logged in to remove game". simpl.
    repeat split; auto; try discriminate; try lia.
    intros (u' & o' & w1' & w2' & [=] & _).
Qed.

End WriteRoutes.

Section MarkRoutes.
Context {W : Type} (S : WriteService.t W).
Import Writes.

(** The common shape of the two handlers, for one marking service and its
    two message texts. *)
Lemma mark_outcomes
    (service : option string -> string -> Action W unit)
    (done failed : string) (req : Request MarkBody.t) (w : W) :
  let handler :=
    try_catch
      (match user req with
       | None => ret (Json 401 "Unauthorized")
       | Some u =>
           _ <~ service (MarkBody.gameId (body req)) (GammaUser.cid u) ;;
           ret (Json 200 done)
       end)
      (fun e =>
         match e with
         | ThrownError message => ret (Json 500 message)
         | ThrownOther => ret (Json 500 failed)
         end) in
  exists status message,
    fst (handler w) = Returns (Json status message) /\
    (status = 401 \/ status = 200 \/ status = 500) /\
    (status = 401 <-> user req = None) /\
    (status = 200 <->
     exists u w1,
       user req = Some u /\
       service (MarkBody.gameId (body req)) (GammaUser.cid u) w = (Returns tt, w1)) /\
    (user req = None -> snd (handler w) = w) /\
    (forall u m w1,
       user req = Some u ->
       service (MarkBody.gameId (body req)) (GammaUser.cid u) w
       = (Throws (ThrownError m), w1) ->
       handler w = (Returns (Json 500 m), w1)).
Proof.
  cbv zeta. unfold try_catch, and_then, ret. destruct (user req) as [u|].
  - destruct (service (MarkBody.gameId (body req)) (GammaUser.cid u) w)
      as [[[]|t] w1] eqn:Hs.
    + exists 200, done. simpl. repeat split; auto; try discriminate; try lia.
      * intros _. exists u, w1. auto.
      * intros u' m w1' [= <-]. rewrite Hs. discriminate.
    + destruct t as [m|].
      * exists 500, m. simpl. repeat split; auto; try discriminate; try lia.
        -- intros (u' & w1' & [= <-] & Hr). rewrite Hs in Hr. discriminate.
        -- intros u' m' w1' [= <-]. rewrite Hs. now intros [= <- <-].
      * exists 500, failed. simpl. repeat split; auto; try discriminate; try lia.
        -- intros (u' & w1' & [= <-] & Hr). rewrite Hs in Hr. discriminate.
        -- intros u' m' w1' [= <-]. rewrite Hs. discriminate.
  - exists 401, "Unauthorized". simpl. repeat split; auto; try discriminate; try lia.
    intros (u' & w1' & [=] & _).
Qed.

(** X13.  [POST /markPlayed] and [POST /markNotPlayed] always answer, with
    401, 200 or 500: 401 exactly for a request without a user (the marking
    service is then not run and the state is untouched), 200 exactly when
    the marking service, called with [req.body.gameId] and the caller's
    [cid], returns, and 500 with the thrown error's own message when it
    throws an [Error]. *)
Theorem mark_routes_outcomes (req : Request MarkBody.t) (w : W) :
  (exists status message,
     fst (postMarkPlayed S req w) = Returns (Json status message) /\
     (status = 401 \/ status = 200 \/ status = 500) /\
     (status = 401 <-> user req = None) /\
     (status = 200 <->
      exists u w1,
        user req = Some u /\
        WriteService.markGameAsPlayed S (MarkBody.gameId (body req)) (GammaUser.cid u) w
        = (Returns tt, w1)) /\
     (user req = None -> snd (postMarkPlayed S req w) = w) /\
     (forall u m w1,
        user req = Some u ->
        WriteService.markGameAsPlayed S (MarkBody.gameId (body req)) (GammaUser.cid u) w
        = (Throws (ThrownError m), w1) ->
        postMarkPlayed S req w = (Returns (Json 500 m), w1))) /\
  (exists status message,
     fst (postMarkNotPlayed S req w) = Returns (Json status message) /\
     (status = 401 \/ status = 200 \/ status = 500) /\
     (status = 401 <-> user req = None) /\
     (status = 200 <->
      exists u w1,
        user req = Some u /\
        WriteService.markGameAsNotPlayed S (MarkBody.gameId (body req)) (GammaUser.cid u) w
        = (Returns tt, w1)) /\
     (user req = None -> snd (postMarkNotPlayed S req w) = w) /\
     (forall u m w1,
        user req = Some u ->
        WriteService.markGameAsNotPlayed S (MarkBody.gameId (body req)) (GammaUser.cid u) w
        = (Throws (ThrownError m), w1) ->
        postMarkNotPlayed S req w = (Returns (Json 500 m), w1))).
Proof.
  split.
  - exact (mark_outcomes (WriteService.markGameAsPlayed S)
             "Game marked as played" "Error marking game as played" req w).
  - exact (mark_outcomes (WriteService.markGameAsNotPlayed S)
             "Game marked as not played" "Error marking game as not played" req w).
Qed.

End MarkRoutes.

Section AddRoute.
Context {D : DateApi} {W : Type} (S : WriteService.t W).
Import Writes.




End AddRoute.

(** The write routes on the sample services. *)

Example postAdd_sample_unknown_platform :
  Writes.postAdd (D := IsoDate.api) SampleWrites.services
    (SampleWrites.add (Some SampleWrites.alice) SampleWrites.pong) SampleWrites.world
  = (Returns (Writes.ApiValidationError "platform" "Platform does not exist" "Body"),
     SampleWrites.world).
Proof. reflexivity. Qed.

Example postAdd_sample_created :
  Writes.postAdd (D := IsoDate.api) SampleWrites.services
    (SampleWrites.add (Some SampleWrites.alice) SampleWrites.chess) SampleWrites.world
  = (Returns (Writes.Json 200 "Game added"), ("Chess", "owner1") :: SampleWrites.world).
Proof. reflexivity. Qed.

Example postAdd_sample_hides_error :
  Writes.postAdd (D := IsoDate.api) SampleWrites.services
    (SampleWrites.add (Some SampleWrites.mallory) SampleWrites.chess) SampleWrites.world
  = (Returns (Writes.Json 400 "Something went wrong adding the game"), SampleWrites.world).
Proof. reflexivity. Qed.

Example postRemove_sample_removed :
  Writes.postRemove SampleWrites.services
    (SampleWrites.remove (Some SampleWrites.alice) "g1") SampleWrites.world
  = (Returns (Writes.Json 200 "Game removed"), [("g2", "owner2")]).
Proof. reflexivity. Qed.

Example postRemove_sample_not_owner :
  Writes.postRemove SampleWrites.services
    (SampleWrites.remove (Some SampleWrites.alice) "g2") SampleWrites.world
  = (Returns (Writes.Json 400 "Game not found"), SampleWrites.world).
Proof. reflexivity. Qed.

Example postRemove_sample_anonymous :
  Writes.postRemove SampleWrites.services
    (SampleWrites.remove None "g1") SampleWrites.world
  = (Returns (Writes.Json 401 "Must be logged in to remove game"), SampleWrites.world).
Proof. reflexivity. Qed.

(** ** Rows and games, route by route *)

Lemma formatGames_ids {D : DateApi} (S : Service.t) (user : option GammaUser.t)
    (games : list Game.t) (fs : list DTO.t) :
  Enrichment.formatGames S games user = Ok fs ->
  map DTO.id fs = map Game.id games.
Proof.
  intros Hfs. apply formatGames_Forall2 in Hfs.
  induction Hfs as [|game dto games fs Hd _ IH]; [reflexivity|].
  simpl. apply formatGame_fields in Hd as (-> & _). now rewrite IH.
Qed.

Lemma marked_ids (uid : option string) (games : list Game.t) (fs : list DTO.t) :
  length fs = length games ->
  map DTO.id (zip_with (fun game dto => DTO.set_isPlayed (Enrichment.playedBy uid game) dto)
                       games fs)
  = map DTO.id fs.
Proof.
  revert fs. induction games as [|game games IH]; intros [|dto fs] Hlen;
    try discriminate; [reflexivity|].
  simpl. f_equal. apply IH. now injection Hlen.
Qed.

(** X17.  Each of the three listing routes answers 200 with exactly one
    row per game its service call returned, in the same order: the ids of
    the rows are the ids of the games. *)
Theorem routes_rows_follow_games {D : DateApi} (S : Service.t)
    (req : Router.Request) (resp : Router.Response) (games : list Game.t) :
  (Service.getAllGames S = Ok games /\ Router.getGames S req = Ok resp) \/
  (Service.searchGames S (default EmptyString (Router.query_term req)) = Ok games /\
   Router.getSearch S req = Ok resp) \/
  (Service.filterGames S (FilterCompiler.compile (Router.body req)) = Ok games /\
   Router.postFilter S req = Ok resp) ->
  Router.status resp = 200 /\
  map DTO.id (Router.json resp) = map Game.id games.
Proof.
  intros [[Hg Hr] | [[Hg Hr] | [Hg Hr]]].
  - unfold Router.getGames in Hr. rewrite Hg in Hr. simpl in Hr.
    destruct (Enrichment.formatGames S games _) as [fs|e] eqn:Hfs;
      simpl in Hr; [|discriminate].
    injection Hr as <-. simpl. split; [reflexivity|]. now apply formatGames_ids in Hfs.
  - unfold Router.getSearch in Hr. rewrite Hg in Hr. simpl in Hr.
    destruct (Enrichment.formatGames S games _) as [fs|e] eqn:Hfs;
      simpl in Hr; [|discriminate].
    injection Hr as <-. simpl. split; [reflexivity|]. now apply formatGames_ids in Hfs.
  - unfold Router.postFilter in Hr. rewrite Hg in Hr. simpl in Hr.
    destruct (Enrichment.formatGames S games _) as [fs|e] eqn:Hfs;
      simpl in Hr; [|discriminate].
    assert (Hlen : length fs = length games).
    { apply formatGames_Forall2 in Hfs. symmetry. exact (Forall2_length _ _ _ Hfs). }
    apply formatGames_ids in Hfs.
    destruct (Router.user req) as [u|].
    + destruct (Service.getAccountFromCid S _) as [account|e]; simpl in Hr; [|discriminate].
      rewrite (playedLoop_marks _ games fs Hlen) in Hr. simpl in Hr.
      injection Hr as <-. simpl. split; [reflexivity|].
      now rewrite marked_ids.
    + simpl in Hr. injection Hr as <-. simpl. auto.
Qed.

Lemma routes_rows_follow_games_witness :
  exists resp,
    Router.getSearch (D := IsoDate.api) (CatalogStore.services Sample.store) Sample.alice
    = Ok resp /\
    Router.status resp = 200 /\
    map DTO.id (Router.json resp) = ["g1"; "g2"; "g3"].
Proof.
  eexists. split; [reflexivity|].
  apply (routes_rows_follow_games (D := IsoDate.api)
           (CatalogStore.services Sample.store) Sample.alice _
           [Sample.catan; Sample.quintet; Sample.trio]).
  right. left. split; reflexivity.
Defined.

(** ** The borrowed flag and the Borrow history *)

(** X18.  The borrowed flag follows the last open borrow: among Borrow
    records that are otherwise all returned, one unreturned record makes
    [isBorrowed] true wherever it stands, and once that record is returned
    the flag is false. *)
Theorem isBorrowed_follows_open_borrow (game : Game.t) (before after : list Borrow.t) :
  Forall (fun b => Borrow.returned b = true) before ->
  Forall (fun b => Borrow.returned b = true) after ->
  Enrichment.isBorrowed
    (GameUpdate.with_borrow (before ++ {| Borrow.returned := false |} :: after) game)
  = true /\
  Enrichment.isBorrowed
    (GameUpdate.with_borrow (before ++ {| Borrow.returned := true |} :: after) game)
  = false.
Proof.
  intros Hb Ha. split.
  - apply isBorrowed_spec. exists {| Borrow.returned := false |}. simpl.
    split; [|reflexivity]. apply in_or_app. right. now left.
  - apply not_true_is_false. intros Ht.
    apply isBorrowed_spec in Ht as (b & Hin & Hr). simpl in Hin.
    rewrite List.Forall_forall in Hb, Ha.
    apply in_app_or in Hin as [Hin | [<- | Hin]].
    + rewrite (Hb b Hin) in Hr. discriminate.
    + discriminate.
    + rewrite (Ha b Hin) in Hr. discriminate.
Qed.

Lemma isBorrowed_follows_open_borrow_witness :
  Enrichment.isBorrowed
    (GameUpdate.with_borrow
       ([Sample.closed_borrow] ++ {| Borrow.returned := false |} :: [Sample.closed_borrow])
       Sample.quintet) = true /\
  Enrichment.isBorrowed
    (GameUpdate.with_borrow
       ([Sample.closed_borrow] ++ {| Borrow.returned := true |} :: [Sample.closed_borrow])
       Sample.quintet) = false.
Proof.
  apply (isBorrowed_follows_open_borrow Sample.quintet
           [Sample.closed_borrow] [Sample.closed_borrow]);
    repeat constructor.
Defined.
